(** * Valmiki: face detection with age and gender classification

    A shallow embedding of the three Python modules of the service,

    - [app/predictor.py]   : model loading, [_find_face], [predict_age_gender];
    - [app/grpc_server.py] : [ValmikiServicer.Predict], [map_age_to_group];
    - [app/main.py]        : the FastAPI handler [predict] of POST /predict,

    and the properties of these functions.

    Conventions.  Python [int] is [Z]; a Python [str] is the list of its
    Unicode code points; [bytes] is a list of bytes; a [dict] with string
    keys is a [gmap string _]; an exception that leaves a function is the
    [inl] of a sum; OpenCV and the parts of the Python runtime that are
    tables (the Unicode database) are records of operations the
    development is parametric in. *)

From Stdlib Require Import ZArith QArith List String Ascii Lia Bool.
From Stdlib.Strings Require Import Byte.
From stdpp Require Import gmap strings.
Import ListNotations.
Local Open Scope Z_scope.

(* ================================================================== *)
(** * Python values and exceptions *)
(* ================================================================== *)

(** A Python [str]: the sequence of its code points. *)
Definition pystr := list N.

(** A string literal of the source (ASCII only). *)
Definition lit (s : string) : pystr := map N_of_ascii (list_ascii_of_string s).

Definition bytes := list byte.

(** The exception classes that occur in the three modules.  All of them
    are subclasses of [Exception]; [OtherException] stands for any
    further subclass (raised by the engine or the upload). *)
Inductive exn :=
| ValueError
| IndexError
| KeyError
| AttributeError
| cv2_error (msg : pystr)
| HTTPException (status_code : Z) (detail : pystr)
| OtherException (msg : pystr).

(** The outcome of a call that may raise. *)
Definition result (A : Type) : Type := exn + A.

Definition rbind {A B} (r : result A) (k : A -> result B) : result B :=
  match r with
  | inl e => inl e
  | inr a => k a
  end.

(** The part of the interpreter the modules use and that is data, not
    code of this repository. *)
Record Python := {
  (** [Py_UNICODE_ISSPACE], consulted for code points from 127 on *)
  uni_isspace : N -> bool;
  (** [Py_UNICODE_TODECIMAL], consulted for code points from 127 on *)
  uni_todecimal : N -> option N;
  (** [str.lower] on a string that is not pure ASCII *)
  uni_lower : pystr -> pystr;
  (** [sys.get_int_max_str_digits()]; 0 switches the limit off *)
  int_max_str_digits : N;
  (** [str(e)] of an exception, as f-strings compute it *)
  exc_str : exn -> pystr
}.

Module Py.

Definition mem (c : N) (chars : pystr) : bool := existsb (N.eqb c) chars.

Fixpoint lstrip (chars s : pystr) : pystr :=
  match s with
  | [] => []
  | c :: s' => if mem c chars then lstrip chars s' else s
  end.

Definition rstrip (chars s : pystr) : pystr := rev (lstrip chars (rev s)).

(** [s.strip(chars)] *)
Definition strip (chars s : pystr) : pystr := rstrip chars (lstrip chars s).

(** [s.split(sep)] for a separator of one character. *)
Fixpoint split (sep : N) (s : pystr) : list pystr :=
  match s with
  | [] => [[]]
  | c :: s' =>
      if N.eqb c sep then [] :: split sep s'
      else match split sep s' with
           | p :: ps => (c :: p) :: ps
           | [] => [[c]]
           end
  end.

(** [l[i]] for a list and an index that is not negative. *)
Definition getitem {A} (l : list A) (i : nat) : result A :=
  match nth_error l i with
  | Some x => inr x
  | None => inl IndexError
  end.

Fixpoint startswith (s pre : pystr) : bool :=
  match pre, s with
  | [], _ => true
  | _ :: _, [] => false
  | p :: pre', c :: s' => N.eqb p c && startswith s' pre'
  end.

(** [sub in s] for two strings. *)
Fixpoint contains (sub s : pystr) : bool :=
  startswith s sub ||
  match s with
  | [] => false
  | _ :: s' => contains sub s'
  end.

Definition is_ascii (s : pystr) : bool := forallb (fun c => c <? 128)%N s.

Definition ascii_lower (c : N) : N :=
  if (65 <=? c)%N && (c <=? 90)%N then (c + 32)%N else c.

Section Runtime.
Variable py : Python.

(** [s.lower()] *)
Definition lower (s : pystr) : pystr :=
  if is_ascii s then map ascii_lower s else uni_lower py s.

(** ** [int(s)] for a string [s]

    CPython first rewrites the string to ASCII (a code point below 127
    stays, a Unicode space becomes a blank, a Unicode decimal digit
    becomes its ASCII digit, anything else becomes [?]), then reads
    blanks, a sign, digits with single underscores between them, and
    blanks up to the end. *)
Definition to_ascii (c : N) : N :=
  if (c <? 127)%N then c
  else if uni_isspace py c then 32%N
  else match uni_todecimal py c with
       | Some d => (48 + d)%N
       | None => 63%N
       end.

Definition is_space (c : N) : bool :=
  ((9 <=? c) && (c <=? 13) || (c =? 32))%N.

Definition is_digit (c : N) : bool := ((48 <=? c) && (c <=? 57))%N.

Definition digit_val (c : N) : Z := Z.of_N c - 48.

Fixpoint skip_space (s : pystr) : pystr :=
  match s with
  | c :: s' => if is_space c then skip_space s' else s
  | [] => []
  end.

(** The digits after the first one: value so far, number of digits
    so far, and what is left after the last digit. *)
Fixpoint more_digits (acc : Z) (n : N) (s : pystr) : option (Z * N * pystr) :=
  match s with
  | [] => Some (acc, n, [])
  | c :: s' =>
      if is_digit c then more_digits (acc * 10 + digit_val c) (n + 1)%N s'
      else if (c =? 95)%N then
        match s' with
        | d :: s'' =>
            if is_digit d then more_digits (acc * 10 + digit_val d) (n + 1)%N s''
            else None
        | [] => None
        end
      else Some (acc, n, s)
  end.

Definition digits (s : pystr) : option (Z * N * pystr) :=
  match s with
  | c :: s' => if is_digit c then more_digits (digit_val c) 1%N s' else None
  | [] => None
  end.

Definition too_many_digits (n : N) : bool :=
  ((640 <? n) && (0 <? int_max_str_digits py) && (int_max_str_digits py <? n))%N.

Definition int (s : pystr) : result Z :=
  let s := skip_space (map to_ascii s) in
  let '(sign, s) :=
    match s with
    | c :: s' =>
        if (c =? 43)%N then (1, s')
        else if (c =? 45)%N then (-1, s')
        else (1, s)
    | [] => (1, s)
    end in
  match digits s with
  | None => inl ValueError
  | Some (v, n, rest) =>
      if too_many_digits n then inl ValueError
      else match skip_space rest with
           | [] => inr (sign * v)
           | _ :: _ => inl ValueError
           end
  end.

End Runtime.

(** [a[start:stop]] on an axis of length [n]: first index and length of
    the slice ([slice.indices] for step 1). *)
Definition slice_bound (n i : Z) : Z :=
  if i <? 0 then Z.max 0 (i + n) else Z.min i n.

Definition slice_start (n start : Z) : Z := slice_bound n start.

Definition slice_len (n start stop : Z) : Z :=
  Z.max 0 (slice_bound n stop - slice_bound n start).

End Py.

(* ================================================================== *)
(** * OpenCV and NumPy *)
(* ================================================================== *)

(** A decoded colour image (an array of shape [(rows, cols, 3)]), or a
    view of one obtained by slicing. *)
Definition pixel : Type := N * N * N.

Record Frame := {
  rows : nat;
  cols : nat;
  px : nat -> nat -> pixel
}.

(** [frame.shape[:2]] *)
Definition shape2 (f : Frame) : Z * Z := (Z.of_nat (rows f), Z.of_nat (cols f)).

(** [frame.size] *)
Definition size (f : Frame) : Z := Z.of_nat (rows f) * Z.of_nat (cols f) * 3.

(** [frame[r0:r1, c0:c1]] *)
Definition slice2 (f : Frame) (r0 r1 c0 c1 : Z) : Frame :=
  let h := Z.of_nat (rows f) in
  let w := Z.of_nat (cols f) in
  {| rows := Z.to_nat (Py.slice_len h r0 r1);
     cols := Z.to_nat (Py.slice_len w c0 c1);
     px := fun i j => px f (Z.to_nat (Py.slice_start h r0) + i)%nat
                           (Z.to_nat (Py.slice_start w c0) + j)%nat |}.

(** One row [detections[0, 0, i, :]] of the detector's output, at the
    columns the code reads: the confidence (column 2) and the box in
    units of the image size (columns 3 to 6).  Finite floats are
    rationals; the product of such a coordinate and an image dimension
    is a double, which the code then casts to int64. *)
Record detection := {
  confidence : Q;
  x1 : Q;
  y1 : Q;
  x2 : Q;
  y2 : Q
}.

(** The least value of int64. *)
Definition INT64_MIN : Z := - 2 ^ 63.

(** [.astype("int")], the cast of a double to int64: truncation towards
    zero for a value in the range of int64, and the least int64 for a
    value outside it (what the conversion of the processor gives for
    every value it cannot represent). *)
Definition astype_int (q : Q) : Z :=
  let t := Z.quot (Qnum q) (Zpos (Qden q)) in
  if (INT64_MIN <=? t) && (t <? 2 ^ 63) then t else INT64_MIN.

(** [a > b] on floats. *)
Definition Qgtb (a b : Q) : bool := negb (Qle_bool a b).

(** [v.argmax()]: the first index of a greatest entry; [ValueError] on
    an empty vector. *)
Fixpoint argmax_from (best : Q) (besti i : nat) (v : list Q) : nat :=
  match v with
  | [] => besti
  | x :: v' =>
      if Qgtb x best then argmax_from x i (S i) v'
      else argmax_from best besti (S i) v'
  end.

Definition argmax (v : list Q) : result nat :=
  match v with
  | [] => inl ValueError
  | x :: v' => inr (argmax_from x 0%nat 1%nat v')
  end.

(** The six model files of [MODEL_DIR]. *)
Inductive model_file :=
| FACE_PROTO | FACE_MODEL | AGE_PROTO | AGE_MODEL | GENDER_PROTO | GENDER_MODEL.

(** The inference engine.  [forward_detections net blob] is
    [net.setInput(blob); net.forward()] read as detection rows, and
    [forward_scores net blob] the same read as the score vector
    [preds[0]]; an output that cannot be read this way is one of the
    exceptions.  The engine has a state of its own, which a call may read
    and change. *)
Record OpenCV := {
  Net : Type;
  Blob : Type;
  EngineState : Type;
  readNet : model_file -> model_file -> result Net;
  imdecode : bytes -> result (option Frame);
  blobFromImage : Frame -> Q -> Z * Z -> Q * Q * Q -> bool -> result Blob;
  forward_detections : Net -> Blob -> EngineState -> result (list detection) * EngineState;
  forward_scores : Net -> Blob -> EngineState -> result (list Q) * EngineState
}.

(* ================================================================== *)
(** * Effects: the engine's state and the trace of calls *)
(* ================================================================== *)

(** The status codes of [grpc.StatusCode]. *)
Inductive StatusCode :=
| OK | CANCELLED | UNKNOWN | INVALID_ARGUMENT | DEADLINE_EXCEEDED | NOT_FOUND
| ALREADY_EXISTS | PERMISSION_DENIED | RESOURCE_EXHAUSTED | FAILED_PRECONDITION
| ABORTED | OUT_OF_RANGE | UNIMPLEMENTED | INTERNAL | UNAVAILABLE | DATA_LOSS
| UNAUTHENTICATED.

(** What a handler does to the objects around it, in the order it does
    it (log records are left out: no function reads them). *)
Inductive event :=
| ev_predict_age_gender (image_bytes : bytes)   (* entry into the pipeline *)
| ev_file_close                                 (* [await file.close()] *)
| ev_set_code (code : StatusCode)               (* [context.set_code(code)] *)
| ev_set_details (details : pystr).             (* [context.set_details(details)] *)

Record World (cv : OpenCV) := {
  engine : EngineState cv;
  trace : list event
}.
Arguments engine {cv} _.
Arguments trace {cv} _.

(** A computation that reads and changes the world and returns or raises. *)
Definition M (cv : OpenCV) (A : Type) : Type := World cv -> result A * World cv.

Section Monad.
Context {cv : OpenCV}.

Definition ret {A} (a : A) : M cv A := fun w => (inr a, w).

Definition raise {A} (e : exn) : M cv A := fun w => (inl e, w).

Definition bind {A B} (m : M cv A) (k : A -> M cv B) : M cv B :=
  fun w =>
    match m w with
    | (inl e, w') => (inl e, w')
    | (inr a, w') => k a w'
    end.

(** [try: body  except Exception as e: handler e] *)
Definition try_except {A} (body : M cv A) (handler : exn -> M cv A) : M cv A :=
  fun w =>
    match body w with
    | (inl e, w') => handler e w'
    | (inr a, w') => (inr a, w')
    end.

(** [try: body  finally: cleanup] *)
Definition try_finally {A} (body : M cv A) (cleanup : M cv unit) : M cv A :=
  fun w =>
    match body w with
    | (r, w') =>
        match cleanup w' with
        | (inl e, w'') => (inl e, w'')
        | (inr _, w'') => (r, w'')
        end
    end.

Definition lift {A} (r : result A) : M cv A := fun w => (r, w).

Definition emit (ev : event) : M cv unit :=
  fun w => (inr tt, {| engine := engine w; trace := trace w ++ [ev] |}).

(** A call into the engine. *)
Definition engine_call {A}
    (op : EngineState cv -> result A * EngineState cv) : M cv A :=
  fun w =>
    let '(r, s) := op (engine w) in
    (r, {| engine := s; trace := trace w |}).

End Monad.

Notation "x <- m ;; k" := (bind m (fun x => k))
  (at level 100, m at next level, right associativity).
Notation "m ;;; k" := (bind m (fun _ => k))
  (at level 100, right associativity).

(** A Python [dict] with string keys and string values. *)
Abbreviation dict := (gmap string pystr).

(* ================================================================== *)
(** * [app/predictor.py] *)
(* ================================================================== *)

Module predictor.

Definition FACE_CONFIDENCE_THRESHOLD : Q := 5 # 10.

Definition MODEL_MEAN_VALUES : Q * Q * Q :=
  (7842633776 # 100000000, 8776891437 # 100000000, 11489584775 # 100000000).

Definition AGE_BUCKETS : list pystr :=
  [lit "(0-2)"; lit "(4-6)"; lit "(8-12)"; lit "(15-20)";
   lit "(25-32)"; lit "(38-43)"; lit "(48-53)"; lit "(60-100)"].

Definition GENDER_LIST : list pystr := [lit "Male"; lit "Female"].

(** The three module globals [face_net], [age_net], [gender_net];
    [None] is Python's [None]. *)
Record ModelBundle (cv : OpenCV) := {
  face_net : option (Net cv);
  age_net : option (Net cv);
  gender_net : option (Net cv)
}.
Arguments face_net {cv} _.
Arguments age_net {cv} _.
Arguments gender_net {cv} _.

(** A face box [(startX, startY, endX, endY)]. *)
Definition box : Type := Z * Z * Z * Z.

Section Predictor.
Variable py : Python.
Variable cv : OpenCV.

(** The module-level [try: ... except cv2.error] that loads the
    models: a [cv2.error] leaves all three globals [None], any other
    exception leaves the import. *)
Definition load_models : result (ModelBundle cv) :=
  match
    rbind (readNet cv FACE_MODEL FACE_PROTO) (fun f =>
    rbind (readNet cv AGE_MODEL AGE_PROTO) (fun a =>
    rbind (readNet cv GENDER_MODEL GENDER_PROTO) (fun g =>
    inr {| face_net := Some f; age_net := Some a; gender_net := Some g |})))
  with
  | inl (cv2_error _) =>
      inr {| face_net := None; age_net := None; gender_net := None |}
  | r => r
  end.

Variable nets : ModelBundle cv.

(** One turn of the loop of [_find_face] over the detection [d], on
    the loop's variables [best_face_box] and [max_confidence]. *)
Definition find_face_step (h w : Z) (st : option box * Q) (d : detection)
  : option box * Q :=
  let '(best_face_box, max_confidence) := st in
  if Qgtb (confidence d) FACE_CONFIDENCE_THRESHOLD
     && Qgtb (confidence d) max_confidence
  then
    let max_confidence := confidence d in
    let startX := astype_int (x1 d * inject_Z w) in
    let startY := astype_int (y1 d * inject_Z h) in
    let endX := astype_int (x2 d * inject_Z w) in
    let endY := astype_int (y2 d * inject_Z h) in
    let startX := Z.max 0 startX in
    let startY := Z.max 0 startY in
    let endX := Z.min (w - 1) endX in
    let endY := Z.min (h - 1) endY in
    if (endX >? startX) && (endY >? startY)
    then (Some (startX, startY, endX, endY), max_confidence)
    else (best_face_box, max_confidence)
  else (best_face_box, max_confidence).

(** The loop of [_find_face], from [best_face_box = None] and
    [max_confidence = 0.0]. *)
Definition find_face_loop (h w : Z) (detections : list detection) : option box :=
  fst (fold_left (find_face_step h w) detections (None, 0%Q)).

Definition _find_face (frame : Frame) : M cv (option box) :=
  match face_net nets with
  | None => ret None
  | Some net =>
      let '(h, w) := shape2 frame in
      blob <- lift (blobFromImage cv frame 1 (300, 300)
                      (inject_Z 104, inject_Z 177, inject_Z 123) false) ;;
      detections <- engine_call (forward_detections cv net blob) ;;
      ret (find_face_loop h w detections)
  end.

(** [net.setInput(blob); net.forward()[0]] on a global that may be
    [None]. *)
Definition scores (net : option (Net cv)) (blob : Blob cv) : M cv (list Q) :=
  match net with
  | None => raise AttributeError
  | Some n => engine_call (forward_scores cv n blob)
  end.

(** The entry into the function is recorded in the trace; the rest is
    the body of the function. *)
Definition predict_age_gender (image_bytes : bytes) : M cv (option dict) :=
  emit (ev_predict_age_gender image_bytes) ;;;
  match age_net nets, gender_net nets with
  | Some _, Some _ =>
    try_except
      (frame <- lift (imdecode cv image_bytes) ;;
       match frame with
       | None => ret None
       | Some frame =>
         let '(h, w) := shape2 frame in
         if (h =? 0) || (w =? 0) then ret None
         else
           face_box <- _find_face frame ;;
           match face_box with
           | None => ret (Some {[ "error" := lit "No face detected" ]})
           | Some (startX, startY, endX, endY) =>
             let padding := 20 in
             let face :=
               slice2 frame
                 (Z.max 0 (startY - padding)) (Z.min h (endY + padding))
                 (Z.max 0 (startX - padding)) (Z.min w (endX + padding)) in
             if size face =? 0
             then ret (Some {[ "error" := lit "Failed to extract face region" ]})
             else
               face_blob <- lift (blobFromImage cv face 1 (227, 227)
                                    MODEL_MEAN_VALUES false) ;;
               gender_preds <- scores (gender_net nets) face_blob ;;
               gender <- lift (rbind (argmax gender_preds) (Py.getitem GENDER_LIST)) ;;
               age_preds <- scores (age_net nets) face_blob ;;
               age <- lift (rbind (argmax age_preds) (Py.getitem AGE_BUCKETS)) ;;
               ret (Some (<[ "age" := age ]> (<[ "gender" := gender ]> ∅)))
           end
       end)
      (fun e =>
         match e with
         | cv2_error _ =>
             ret (Some {[ "error" := lit "OpenCV processing error: " ++ exc_str py e ]})
         | _ =>
             ret (Some {[ "error" :=
                    lit "An unexpected server error occurred: " ++ exc_str py e ]})
         end)
  | _, _ => ret None
  end.

End Predictor.

End predictor.

(* ================================================================== *)
(** * [app/grpc_server.py] *)
(* ================================================================== *)

Module grpc_server.

Record PredictRequest := { image_data : bytes }.

(** The message [PredictResponse] of [valmiki_pb2], with the fields the
    servicer sets; a field that is not set has the default of its
    type. *)
Record PredictResponse := {
  age_group : pystr;
  gender : pystr;
  confidence : Q
}.

(** [valmiki_pb2.PredictResponse()] *)
Definition PredictResponse_default : PredictResponse :=
  {| age_group := []; gender := []; confidence := 0 |}.

Section Servicer.
Variable py : Python.
Variable cv : OpenCV.
Variable nets : predictor.ModelBundle cv.

Definition map_age_to_group (age_range : pystr) : result pystr :=
  let age_range := Py.strip (lit "()") age_range in
  match
    (let parts := Py.split 45 age_range in
     rbind (Py.getitem parts 0) (fun part0 =>
     rbind (Py.int py part0) (fun min_age =>
     if min_age <? 13 then inr (lit "child")
     else if min_age <? 20 then inr (lit "teen")
     else if min_age <? 35 then inr (lit "young_adult")
     else if min_age <? 50 then inr (lit "adult")
     else inr (lit "senior"))))
  with
  | inl ValueError | inl IndexError => inr (lit "adult")
  | r => r
  end.

(** [d[key]] *)
Definition dict_getitem (d : dict) (key : string) : result pystr :=
  match d !! key with
  | Some v => inr v
  | None => inl KeyError
  end.

Definition Predict (request : PredictRequest) : M cv PredictResponse :=
  match image_data request with
  | [] =>
      emit (ev_set_code INVALID_ARGUMENT) ;;;
      emit (ev_set_details (lit "Empty image data")) ;;;
      ret PredictResponse_default
  | _ :: _ =>
      try_except
        (result <- predictor.predict_age_gender py cv nets (image_data request) ;;
         match result with
         | None =>
             emit (ev_set_code INTERNAL) ;;;
             emit (ev_set_details (lit "Prediction failed")) ;;;
             ret PredictResponse_default
         | Some result =>
             match result !! "error" with
             | Some err =>
                 (if Py.contains (lit "No face detected") err
                  then emit (ev_set_code FAILED_PRECONDITION) ;;;
                       emit (ev_set_details err)
                  else emit (ev_set_code INTERNAL) ;;;
                       emit (ev_set_details err)) ;;;
                 ret PredictResponse_default
             | None =>
                 age <- lift (dict_getitem result "age") ;;
                 age_group <- lift (map_age_to_group age) ;;
                 gender <- lift (dict_getitem result "gender") ;;
                 let gender := Py.lower py gender in
                 ret {| age_group := age_group;
                        gender := gender;
                        confidence := 95 # 100 |}
             end
         end)
        (fun e =>
           emit (ev_set_code INTERNAL) ;;;
           emit (ev_set_details (lit "Internal server error: " ++ exc_str py e)) ;;;
           ret PredictResponse_default)
  end.

(** The port [serve] binds:
    [int(os.environ.get("GRPC_PORT", "50052"))]. *)
Definition serve_port (environ : dict) : result Z :=
  Py.int py match environ !! "GRPC_PORT" with
            | Some value => value
            | None => lit "50052"
            end.

End Servicer.

(** The status the client sees: the last code the handler set, [OK]
    when it set none. *)
Fixpoint status_code_from (c : StatusCode) (t : list event) : StatusCode :=
  match t with
  | [] => c
  | ev_set_code c' :: t' => status_code_from c' t'
  | _ :: t' => status_code_from c t'
  end.

Definition rpc_status (t : list event) : StatusCode := status_code_from OK t.

End grpc_server.

(* ================================================================== *)
(** * [app/main.py] *)
(* ================================================================== *)

Module main.

(** [fastapi.status] *)
Definition HTTP_200_OK : Z := 200.
Definition HTTP_400_BAD_REQUEST : Z := 400.
Definition HTTP_500_INTERNAL_SERVER_ERROR : Z := 500.
Definition HTTP_503_SERVICE_UNAVAILABLE : Z := 503.

(** The upload of a request: its name and what [await file.read()]
    gives.  Closing the upload does not fail. *)
Record UploadFile := {
  filename : pystr;
  read : result bytes
}.

Record JSONResponse := {
  status_code : Z;
  content : dict
}.

Section App.
Variable py : Python.
Variable cv : OpenCV.
Variable nets : predictor.ModelBundle cv.

(** [all([predictor.face_net, predictor.age_net, predictor.gender_net])] *)
Definition models_loaded : bool :=
  match predictor.face_net nets, predictor.age_net nets, predictor.gender_net nets with
  | Some _, Some _, Some _ => true
  | _, _, _ => false
  end.

Definition predict (file : UploadFile) : M cv JSONResponse :=
  if negb models_loaded then
    raise (HTTPException HTTP_503_SERVICE_UNAVAILABLE
             (lit "Models are not loaded, service cannot process requests."))
  else
    contents <-
      try_finally
        (try_except
           (contents <- lift (read file) ;;
            match contents with
            | [] => raise (HTTPException HTTP_400_BAD_REQUEST (lit "Empty file received."))
            | _ :: _ => ret contents
            end)
           (fun e =>
              raise (HTTPException HTTP_400_BAD_REQUEST
                       (lit "Error reading file: " ++ exc_str py e))))
        (emit ev_file_close) ;;
    try_except
      (results <- predictor.predict_age_gender py cv nets contents ;;
       match results with
       | None =>
           raise (HTTPException HTTP_500_INTERNAL_SERVER_ERROR (lit "Prediction failed."))
       | Some results =>
           match results !! "error" with
           | Some err =>
               if Py.contains (lit "No face detected") err
               then raise (HTTPException HTTP_400_BAD_REQUEST err)
               else raise (HTTPException HTTP_500_INTERNAL_SERVER_ERROR err)
           | None =>
               results <-
                 match results !! "age" with
                 | Some age =>
                     group <- lift (grpc_server.map_age_to_group py age) ;;
                     ret (<[ "age_group" := group ]> results)
                 | None => ret results
                 end ;;
               ret {| status_code := HTTP_200_OK; content := results |}
           end
       end)
      (fun e =>
         match e with
         | HTTPException _ _ => raise e
         | _ =>
             raise (HTTPException HTTP_500_INTERNAL_SERVER_ERROR
                      (lit "An internal error occurred: " ++ exc_str py e))
         end).

(** [health_check], the handler of GET /health: a [JSONResponse] of
    status 503 when a model is missing, and otherwise a dictionary, which
    the framework sends with status 200. *)
Definition health_check : M cv JSONResponse :=
  if negb models_loaded then
    ret {| status_code := HTTP_503_SERVICE_UNAVAILABLE;
           content := <[ "status" := lit "error" ]>
                        (<[ "detail" := lit "Models not loaded" ]> ∅) |}
  else
    ret {| status_code := HTTP_200_OK; content := {[ "status" := lit "OK" ]} |}.

(** [PORT = int(os.environ.get("PORT", 8000))] and
    [GRPC_PORT = int(os.environ.get("GRPC_PORT", 50052))], as functions
    of [os.environ]. *)
Definition PORT (environ : dict) : result Z :=
  match environ !! "PORT" with
  | Some value => Py.int py value
  | None => inr 8000
  end.

Definition GRPC_PORT (environ : dict) : result Z :=
  match environ !! "GRPC_PORT" with
  | Some value => Py.int py value
  | None => inr 50052
  end.

End App.

(** The status of the HTTP response the framework sends for what the
    handler returned or raised. *)
Definition http_status (r : result JSONResponse) : Z :=
  match r with
  | inr response => status_code response
  | inl (HTTPException code _) => code
  | inl _ => HTTP_500_INTERNAL_SERVER_ERROR
  end.

(** The body of the HTTP response: the content the handler returned,
    and no dictionary of the handler's when it raised. *)
Definition content_of (r : result JSONResponse) : dict :=
  match r with
  | inr response => content response
  | inl _ => ∅
  end.

End main.

(* ================================================================== *)
(** * A small runtime and engine to run the functions on *)
(* ================================================================== *)

Module fixture.

(** A runtime whose Unicode tables know ASCII only. *)
Definition py0 : Python :=
  {| uni_isspace := fun _ => false;
     uni_todecimal := fun _ => None;
     uni_lower := fun s => s;
     int_max_str_digits := 4300;
     exc_str := fun e =>
       match e with
       | cv2_error msg => msg
       | OtherException msg => msg
       | HTTPException _ detail => detail
       | _ => []
       end |}.

(** A loaded model is the output it gives on every input. *)
Inductive toy_net :=
| detector (detections : list detection)
| classifier (preds : list Q).

Definition blank (h w : nat) : Frame :=
  {| rows := h; cols := w; px := fun _ _ => (0, 0, 0)%N |}.

(** The engine decodes a payload that starts with a byte other than
    zero to a blank image of 64 by 64 pixels and no other payload, and
    counts the forward passes in its state. *)
Definition cv0 : OpenCV :=
  {| Net := toy_net;
     Blob := Frame;
     EngineState := nat;
     readNet := fun model _ =>
       match model with
       | FACE_MODEL => inr (detector [])
       | _ => inr (classifier [1%Q])
       end;
     imdecode := fun image =>
       match image with
       | x00 :: _ => inr None
       | [] => inr None
       | _ :: _ => inr (Some (blank 64 64))
       end;
     blobFromImage := fun frame _ _ _ _ => inr frame;
     forward_detections := fun net _ s =>
       match net with
       | detector ds => (inr ds, S s)
       | classifier _ => (inl (cv2_error (lit "no detection output")), s)
       end;
     forward_scores := fun net _ s =>
       match net with
       | classifier v => (inr v, S s)
       | detector _ => (inl (cv2_error (lit "no score output")), s)
       end |}.

Definition w0 : World cv0 := Build_World cv0 0%nat [].

Definition det (c a b a' b' : Q) : detection :=
  {| confidence := c; x1 := a; y1 := b; x2 := a'; y2 := b' |}.

(** One face of confidence 7/8 in the middle of the image; the age
    scores peak at [(25-32)], the gender scores at [Female]. *)
Definition face_detector : toy_net :=
  detector [det (7 # 8) (1 # 4) (1 # 4) (3 # 4) (3 # 4)].

Definition age_classifier : toy_net :=
  classifier [0; 1 # 10; 0; 1 # 10; 7 # 10; 1 # 10; 0; 0]%Q.

Definition gender_classifier : toy_net := classifier [1 # 4; 3 # 4]%Q.

Definition nets_ok : predictor.ModelBundle cv0 :=
  predictor.Build_ModelBundle cv0
    (Some face_detector) (Some age_classifier) (Some gender_classifier).

(** The detector finds nothing. *)
Definition nets_no_face : predictor.ModelBundle cv0 :=
  predictor.Build_ModelBundle cv0
    (Some (detector [])) (Some age_classifier) (Some gender_classifier).

(** All three loads failed. *)
Definition nets_none : predictor.ModelBundle cv0 :=
  predictor.Build_ModelBundle cv0 None None None.

(** Only the detector is missing. *)
Definition nets_no_detector : predictor.ModelBundle cv0 :=
  predictor.Build_ModelBundle cv0
    None (Some age_classifier) (Some gender_classifier).

(** A face of confidence 5/8 in the middle of the image, then a
    detection of confidence 7/8 that lies to the right of the image. *)
Definition d_face : detection := det (5 # 8) (1 # 4) (1 # 4) (3 # 4) (3 # 4).
Definition d_outside : detection := det (7 # 8) (5 # 4) (1 # 4) (3 # 2) (3 # 4).

Definition nets_two : predictor.ModelBundle cv0 :=
  predictor.Build_ModelBundle cv0
    (Some (detector [d_face; d_outside])) (Some age_classifier) (Some gender_classifier).

Definition picture : bytes := [xff; xd8; xff].
Definition garbage : bytes := [x00; x01].

(** An upload that reads as [contents], and an RPC request. *)
Definition upload (contents : bytes) : main.UploadFile :=
  {| main.filename := lit "face.jpg"; main.read := inr contents |}.

Definition rpc (payload : bytes) : grpc_server.PredictRequest :=
  {| grpc_server.image_data := payload |}.


(** An engine like [cv0] that fails to decode a payload that starts with
    the byte 1, with a message of its own. *)
Definition cv1 : OpenCV :=
  {| Net := toy_net;
     Blob := Frame;
     EngineState := nat;
     readNet := fun model _ =>
       match model with
       | FACE_MODEL => inr (detector [])
       | AGE_MODEL => inl (cv2_error (lit "age_net.caffemodel not found"))
       | _ => inr (classifier [1%Q])
       end;
     imdecode := fun image =>
       match image with
       | x01 :: _ => inl (cv2_error (lit "imdecode: No face detected by decoder"))
       | _ => imdecode cv0 image
       end;
     blobFromImage := blobFromImage cv0;
     forward_detections := forward_detections cv0;
     forward_scores := forward_scores cv0 |}.

Definition nets_cv1 : predictor.ModelBundle cv1 :=
  predictor.Build_ModelBundle cv1
    (Some face_detector) (Some age_classifier) (Some gender_classifier).

Definition odd_payload : bytes := [x01; x02].


(** The gender model gives an empty score vector. *)
Definition nets_no_label : predictor.ModelBundle cv0 :=
  predictor.Build_ModelBundle cv0
    (Some face_detector) (Some age_classifier) (Some (classifier [])).

End fixture.

(* ================================================================== *)
(** * The age groups and the reading of a bucket *)
(* ================================================================== *)

(** The five categories of [map_age_to_group]. *)
Definition AGE_GROUPS : list pystr :=
  [lit "child"; lit "teen"; lit "young_adult"; lit "adult"; lit "senior"].

(** The category of a least age. *)
Definition group_of_min_age (min_age : Z) : pystr :=
  if min_age <? 13 then lit "child"
  else if min_age <? 20 then lit "teen"
  else if min_age <? 35 then lit "young_adult"
  else if min_age <? 50 then lit "adult"
  else lit "senior".

(** The first bound of a bucket: the text before the first [-], without
    the parentheses around the bucket, read as an integer. *)
Definition first_bound (py : Python) (age_range : pystr) : result Z :=
  Py.int py (hd [] (Py.split 45 (Py.strip (lit "()") age_range))).

(* ================================================================== *)
(** * Vocabulary of the properties *)
(* ================================================================== *)

(** A box lies in the image of height [h] and width [w] and is not
    empty. *)
Definition box_within (h w : Z) (b : predictor.box) : Prop :=
  let '(startX, startY, endX, endY) := b in
  0 <= startX /\ startX < endX /\ endX <= w - 1
  /\ 0 <= startY /\ startY < endY /\ endY <= h - 1.

Definition opt_box_within (h w : Z) (b : option predictor.box) : Prop :=
  match b with
  | Some b => box_within h w b
  | None => True
  end.

(** The pixel box of a detection, clipped as [_find_face] clips it. *)
Definition clipped_box (h w : Z) (d : detection) : predictor.box :=
  (Z.max 0 (astype_int (x1 d * inject_Z w)),
   Z.max 0 (astype_int (y1 d * inject_Z h)),
   Z.min (w - 1) (astype_int (x2 d * inject_Z w)),
   Z.min (h - 1) (astype_int (y2 d * inject_Z h))).

(** The clipped box has an area. *)
Definition box_valid (b : predictor.box) : bool :=
  let '(startX, startY, endX, endY) := b in
  (endX >? startX) && (endY >? startY).

(** What the loop of [_find_face] holds in [best_face_box]: the clipped
    box, with an area, of a detection above the threshold. *)
Definition from_detection (h w : Z) (ds : list detection) (b : option predictor.box) : Prop :=
  match b with
  | None => True
  | Some b =>
      exists d, In d ds
                /\ Qgtb (confidence d) predictor.FACE_CONFIDENCE_THRESHOLD = true
                /\ b = clipped_box h w d
                /\ box_valid b = true
  end.

(** The padded crop of [predict_age_gender]. *)
Definition padded_crop (frame : Frame) (b : predictor.box) : Frame :=
  let '(startX, startY, endX, endY) := b in
  slice2 frame
    (Z.max 0 (startY - 20)) (Z.min (Z.of_nat (rows frame)) (endY + 20))
    (Z.max 0 (startX - 20)) (Z.min (Z.of_nat (cols frame)) (endX + 20)).

(** The values [predict_age_gender] returns. *)
Inductive pipeline_value (py : Python) : option dict -> Prop :=
| pv_None : pipeline_value py None
| pv_no_face : pipeline_value py (Some {[ "error" := lit "No face detected" ]})
| pv_cv2_error (e : exn) :
    pipeline_value py
      (Some {[ "error" := lit "OpenCV processing error: " ++ exc_str py e ]})
| pv_unexpected (e : exn) :
    pipeline_value py
      (Some {[ "error" := lit "An unexpected server error occurred: " ++ exc_str py e ]})
| pv_success (age gender : pystr) :
    In age predictor.AGE_BUCKETS ->
    In gender predictor.GENDER_LIST ->
    pipeline_value py (Some (<[ "age" := age ]> (<[ "gender" := gender ]> ∅))).

(** The second [try] of the HTTP handler as a function of the value the
    pipeline returned. *)
Definition http_translate (py : Python) (v : option dict) : result main.JSONResponse :=
  match v with
  | None =>
      inl (HTTPException main.HTTP_500_INTERNAL_SERVER_ERROR (lit "Prediction failed."))
  | Some d =>
      match d !! "error" with
      | Some err =>
          if Py.contains (lit "No face detected") err
          then inl (HTTPException main.HTTP_400_BAD_REQUEST err)
          else inl (HTTPException main.HTTP_500_INTERNAL_SERVER_ERROR err)
      | None =>
          match d !! "age" with
          | Some age =>
              match grpc_server.map_age_to_group py age with
              | inr group =>
                  inr {| main.status_code := main.HTTP_200_OK;
                         main.content := <[ "age_group" := group ]> d |}
              | inl e => inl e
              end
          | None => inr {| main.status_code := main.HTTP_200_OK; main.content := d |}
          end
      end
  end.

(** The payloads the pipeline was entered with, in a trace. *)
Fixpoint pipeline_calls (t : list event) : list bytes :=
  match t with
  | [] => []
  | ev_predict_age_gender image_bytes :: t' => image_bytes :: pipeline_calls t'
  | _ :: t' => pipeline_calls t'
  end.

(** The world after some more events. *)
Definition after {cv : OpenCV} (w : World cv) (evs : list event) : World cv :=
  {| engine := engine w; trace := trace w ++ evs |}.

(** The output of a forward pass is a function of the model and its
    input tensor: the state of the engine has no part in it. *)
Definition engine_is_function (cv : OpenCV) : Prop :=
  (forall net blob s1 s2,
      fst (forward_detections cv net blob s1) = fst (forward_detections cv net blob s2))
  /\ (forall net blob s1 s2,
      fst (forward_scores cv net blob s1) = fst (forward_scores cv net blob s2)).

(** The result of a computation does not depend on the world it starts
    in. *)
Definition stateless {cv : OpenCV} {A} (m : M cv A) : Prop :=
  forall w1 w2, fst (m w1) = fst (m w2).

(** What the loader gives when a load raised [e]: the handler of
    [cv2.error] sets the three globals to [None], and any other
    exception leaves the module. *)
Definition failed_load (cv : OpenCV) (e : exn) : result (predictor.ModelBundle cv) :=
  match e with
  | cv2_error _ => inr (predictor.Build_ModelBundle cv None None None)
  | _ => inl e
  end.

(** The exception is a [cv2.error]. *)
Definition is_cv2_error (e : exn) : bool :=
  match e with
  | cv2_error _ => true
  | _ => false
  end.

(** What [Predict] answers and does to its context after the pipeline
    returned the value [v]. *)
Definition rpc_translate (py : Python) (v : option dict)
  : grpc_server.PredictResponse * list event :=
  match v with
  | None =>
      (grpc_server.PredictResponse_default,
       [ev_set_code INTERNAL; ev_set_details (lit "Prediction failed")])
  | Some d =>
      match d !! "error" with
      | Some err =>
          (grpc_server.PredictResponse_default,
           [ev_set_code (if Py.contains (lit "No face detected") err
                         then FAILED_PRECONDITION else INTERNAL);
            ev_set_details err])
      | None =>
          match d !! "age", d !! "gender" with
          | Some age, Some gender =>
              match grpc_server.map_age_to_group py age with
              | inr group =>
                  ({| grpc_server.age_group := group;
                      grpc_server.gender := Py.lower py gender;
                      grpc_server.confidence := 95 # 100 |}, [])
              | inl e =>
                  (grpc_server.PredictResponse_default,
                   [ev_set_code INTERNAL;
                    ev_set_details (lit "Internal server error: " ++ exc_str py e)])
              end
          | _, _ =>
              (grpc_server.PredictResponse_default,
               [ev_set_code INTERNAL;
                ev_set_details (lit "Internal server error: " ++ exc_str py KeyError)])
          end
      end
  end.

(** A computation run from the state [s] of the engine and an empty
    trace: its result, the state it leaves and the events it adds. *)
Definition run_fresh {cv : OpenCV} {A} (m : M cv A) (s : EngineState cv)
  : result A * EngineState cv * list event :=
  let '(r, w') := m (Build_World cv s []) in
  (r, engine w', trace w').

(** The events a computation adds to the trace of the world [w]. *)
Definition new_events {cv : OpenCV} {A} (m : M cv A) (w : World cv) : list event :=
  snd (run_fresh m (engine w)).

(** A computation reads the engine only, not the trace, and only adds
    events to the trace. *)
Definition trace_linear {cv : OpenCV} {A} (m : M cv A) : Prop :=
  forall w,
    m w = let '(r, s, evs) := run_fresh m (engine w) in
          (r, {| engine := s; trace := trace w ++ evs |}).

(** The HTTP status and the RPC status of one kind of outcome. *)
Definition rpc_code_of_http (status : Z) : StatusCode :=
  if status =? 200 then OK
  else if status =? 400 then FAILED_PRECONDITION
  else INTERNAL.

(** The number of times the upload was closed, in a trace. *)
Fixpoint close_count (t : list event) : nat :=
  match t with
  | [] => 0%nat
  | ev_file_close :: t' => S (close_count t')
  | _ :: t' => close_count t'
  end.

(** A computation adds nothing to the trace. *)
Definition quiet {cv : OpenCV} {A} (m : M cv A) : Prop :=
  forall w, trace (snd (m w)) = trace w.

(* ================================================================== *)
(** * Properties of [map_age_to_group] *)
(* ================================================================== *)

Section AgeGroupMapper.
Variable py : Python.

Lemma split_nonempty (sep : N) (s : pystr) : Py.split sep s <> [].
Proof.
  induction s as [|c s IH]; simpl; [discriminate|].
  destruct (N.eqb c sep); [discriminate|].
  destruct (Py.split sep s); discriminate.
Qed.

Lemma group_of_min_age_in (n : Z) : In (group_of_min_age n) AGE_GROUPS.
Proof.
  unfold group_of_min_age, AGE_GROUPS.
  repeat match goal with |- context [?a <? ?b] => destruct (a <? b) end;
    simpl; tauto.
Qed.

Lemma int_raises_ValueError (s : pystr) (e : exn) :
  Py.int py s = inl e -> e = ValueError.
Proof.
  unfold Py.int.
  destruct (match Py.skip_space (map (Py.to_ascii py) s) with
            | [] => _ | c :: s' => _ end) as [sign s1].
  destruct (Py.digits s1) as [[[v n] rest]|]; [|congruence].
  destruct (Py.too_many_digits py n); [congruence|].
  destruct (Py.skip_space rest); congruence.
Qed.

Lemma map_age_to_group_eq (age_range : pystr) :
  grpc_server.map_age_to_group py age_range =
  inr match first_bound py age_range with
      | inr min_age => group_of_min_age min_age
      | inl _ => lit "adult"
      end.
Proof.
  unfold grpc_server.map_age_to_group, first_bound.
  pose proof (split_nonempty 45 (Py.strip (lit "()") age_range)) as Hne.
  destruct (Py.split 45 (Py.strip (lit "()") age_range)) as [|part0 parts];
    [congruence|].
  simpl.
  destruct (Py.int py part0) as [e|min_age] eqn:Hint.
  - apply int_raises_ValueError in Hint. subst e. reflexivity.
  - unfold group_of_min_age, rbind.
    repeat match goal with |- context [?a <? ?b] => destruct (a <? b) end;
      reflexivity.
Qed.

Lemma map_age_to_group_returns (age_range : pystr) :
  exists group,
    grpc_server.map_age_to_group py age_range = inr group /\ In group AGE_GROUPS.
Proof.
  eexists. split; [apply map_age_to_group_eq|].
  destruct (first_bound py age_range); [|apply group_of_min_age_in].
  simpl; tauto.
Qed.

(** C2.  [map_age_to_group] returns on every string, never raises, and
    what it returns is one of the five categories: the category of the
    bucket's first bound by the thresholds 13, 20, 35 and 50 when that
    bound reads as an integer, and [adult] when it does not.  On the
    six buckets of the specification and on [garbage] it gives the
    categories listed there. *)
Theorem map_age_to_group_total (age_range : pystr) :
  (exists group,
      grpc_server.map_age_to_group py age_range = inr group
      /\ In group AGE_GROUPS
      /\ group = match first_bound py age_range with
                 | inr min_age => group_of_min_age min_age
                 | inl _ => lit "adult"
                 end)
  /\ grpc_server.map_age_to_group py (lit "(0-2)") = inr (lit "child")
  /\ grpc_server.map_age_to_group py (lit "(4-6)") = inr (lit "child")
  /\ grpc_server.map_age_to_group py (lit "(15-20)") = inr (lit "teen")
  /\ grpc_server.map_age_to_group py (lit "(25-32)") = inr (lit "young_adult")
  /\ grpc_server.map_age_to_group py (lit "(38-43)") = inr (lit "adult")
  /\ grpc_server.map_age_to_group py (lit "(60-100)") = inr (lit "senior")
  /\ first_bound py (lit "garbage") = inl ValueError
  /\ grpc_server.map_age_to_group py (lit "garbage") = inr (lit "adult").
Proof.
  split.
  - eexists. split; [apply map_age_to_group_eq|]. split; [|reflexivity].
    destruct (first_bound py age_range); [|apply group_of_min_age_in].
    simpl; tauto.
  - repeat split; reflexivity.
Qed.

End AgeGroupMapper.

(* ================================================================== *)
(** * The loop of [_find_face] *)
(* ================================================================== *)

Section FaceLocator.

Lemma Qgtb_true (a b : Q) : Qgtb a b = true <-> (b < a)%Q.
Proof.
  unfold Qgtb. rewrite negb_true_iff.
  split.
  - intros H. apply Qnot_le_lt. intros Hle.
    apply Qle_bool_iff in Hle. congruence.
  - intros H. destruct (Qle_bool a b) eqn:Hle; [|reflexivity].
    apply Qle_bool_iff in Hle. exfalso. exact (Qlt_not_le _ _ H Hle).
Qed.

(** The step, with the clipping named. *)
Lemma find_face_step_eq (h w : Z) (best : option predictor.box) (maxc : Q) (d : detection) :
  predictor.find_face_step h w (best, maxc) d =
  if Qgtb (confidence d) predictor.FACE_CONFIDENCE_THRESHOLD
     && Qgtb (confidence d) maxc
  then (if box_valid (clipped_box h w d) then Some (clipped_box h w d) else best,
        confidence d)
  else (best, maxc).
Proof.
  unfold predictor.find_face_step, box_valid, clipped_box.
  destruct (Qgtb (confidence d) predictor.FACE_CONFIDENCE_THRESHOLD
            && Qgtb (confidence d) maxc); [|reflexivity].
  match goal with |- context [if ?c then _ else _] => destruct c end; reflexivity.
Qed.

Lemma box_valid_within (h w : Z) (d : detection) :
  box_valid (clipped_box h w d) = true -> box_within h w (clipped_box h w d).
Proof.
  unfold box_valid, clipped_box, box_within.
  intros H. apply andb_prop in H. destruct H as [Hx Hy]. lia.
Qed.

Lemma find_face_fold_origin (h w : Z) (all : list detection) (ds : list detection) :
  forall st,
    incl ds all ->
    from_detection h w all (fst st) ->
    from_detection h w all (fst (fold_left (predictor.find_face_step h w) ds st)).
Proof.
  induction ds as [|d ds IH]; intros [best maxc] Hincl Hst;
    cbn [fold_left]; [exact Hst|].
  apply IH; [intros x Hx; apply Hincl; right; exact Hx|].
  rewrite find_face_step_eq.
  destruct (Qgtb (confidence d) predictor.FACE_CONFIDENCE_THRESHOLD) eqn:Hthr;
    cbn [andb]; [|exact Hst].
  destruct (Qgtb (confidence d) maxc); cbn [fst]; [|exact Hst].
  destruct (box_valid (clipped_box h w d)) eqn:Hvalid; [|exact Hst].
  exists d. repeat split; auto. apply Hincl. left. reflexivity.
Qed.

Lemma find_face_loop_origin (h w : Z) (ds : list detection) (b : predictor.box) :
  predictor.find_face_loop h w ds = Some b ->
  exists d, In d ds
            /\ Qgtb (confidence d) predictor.FACE_CONFIDENCE_THRESHOLD = true
            /\ b = clipped_box h w d
            /\ box_valid b = true.
Proof.
  intros Hb.
  pose proof (find_face_fold_origin h w ds ds (None, 0%Q) (incl_refl ds) I) as H.
  unfold predictor.find_face_loop in Hb. rewrite Hb in H. exact H.
Qed.

Lemma find_face_loop_within (h w : Z) (ds : list detection) (b : predictor.box) :
  predictor.find_face_loop h w ds = Some b -> box_within h w b.
Proof.
  intros Hb. apply find_face_loop_origin in Hb.
  destruct Hb as (d & _ & _ & -> & Hvalid).
  apply box_valid_within. exact Hvalid.
Qed.

(** No detection above the threshold: no box. *)
Lemma find_face_loop_below_threshold (h w : Z) (ds : list detection) :
  (forall d, In d ds ->
             Qgtb (confidence d) predictor.FACE_CONFIDENCE_THRESHOLD = false) ->
  predictor.find_face_loop h w ds = None.
Proof.
  intros Hall.
  destruct (predictor.find_face_loop h w ds) as [b|] eqn:Hb; [|reflexivity].
  apply find_face_loop_origin in Hb. destruct Hb as (d & Hin & Hthr & _).
  rewrite (Hall d Hin) in Hthr. discriminate.
Qed.

Lemma find_face_fold_stays (h w : Z) (b : option predictor.box) (c : Q) (ds : list detection) :
  (forall x, In x ds -> Qgtb (confidence x) c = false) ->
  fold_left (predictor.find_face_step h w) ds (b, c) = (b, c).
Proof.
  induction ds as [|x ds IH]; intros Hle; cbn [fold_left]; [reflexivity|].
  rewrite find_face_step_eq, (Hle x (or_introl eq_refl)), andb_false_r.
  apply IH. intros y Hy. apply Hle. right. exact Hy.
Qed.

Lemma find_face_fold_below (h w : Z) (c : Q) (ds : list detection) :
  (forall x, In x ds -> Qgtb c (confidence x) = true) ->
  forall st, Qgtb c (snd st) = true ->
             Qgtb c (snd (fold_left (predictor.find_face_step h w) ds st)) = true.
Proof.
  induction ds as [|x ds IH]; intros Hlt [best maxc] Hst;
    cbn [fold_left]; [exact Hst|].
  apply IH; [intros y Hy; apply Hlt; right; exact Hy|].
  rewrite find_face_step_eq.
  destruct (Qgtb (confidence x) predictor.FACE_CONFIDENCE_THRESHOLD
            && Qgtb (confidence x) maxc); cbn [snd]; [|exact Hst].
  apply Hlt. left. reflexivity.
Qed.

(** When the first detection of greatest confidence is above the
    threshold and its clipped box has an area, the loop returns that
    box. *)
Lemma find_face_loop_best (h w : Z) (before after_ : list detection) (d : detection) :
  Qgtb (confidence d) predictor.FACE_CONFIDENCE_THRESHOLD = true ->
  (forall x, In x before -> Qgtb (confidence d) (confidence x) = true) ->
  (forall x, In x after_ -> Qgtb (confidence x) (confidence d) = false) ->
  box_valid (clipped_box h w d) = true ->
  predictor.find_face_loop h w (before ++ d :: after_) = Some (clipped_box h w d).
Proof.
  intros Hthr Hbefore Hafter Hvalid.
  unfold predictor.find_face_loop. rewrite fold_left_app. cbn [fold_left].
  assert (Hpos : Qgtb (confidence d) 0 = true).
  { apply Qgtb_true. apply Qgtb_true in Hthr.
    eapply Qlt_trans; [|exact Hthr]. reflexivity. }
  pose proof (find_face_fold_below h w (confidence d) before Hbefore
                (None, 0%Q) Hpos) as Hmax.
  destruct (fold_left (predictor.find_face_step h w) before (None, 0%Q))
    as [best maxc].
  simpl in Hmax.
  rewrite find_face_step_eq, Hthr, Hmax, Hvalid. simpl andb. cbv iota.
  rewrite find_face_fold_stays by exact Hafter. reflexivity.
Qed.

(** ... and when that box has no area, the loop returns what it held
    before: the box of an earlier detection of lower confidence, if
    one had an area. *)
Lemma find_face_loop_stale (h w : Z) (before after_ : list detection) (d : detection) :
  Qgtb (confidence d) predictor.FACE_CONFIDENCE_THRESHOLD = true ->
  (forall x, In x before -> Qgtb (confidence d) (confidence x) = true) ->
  (forall x, In x after_ -> Qgtb (confidence x) (confidence d) = false) ->
  box_valid (clipped_box h w d) = false ->
  predictor.find_face_loop h w (before ++ d :: after_) =
  predictor.find_face_loop h w before.
Proof.
  intros Hthr Hbefore Hafter Hvalid.
  unfold predictor.find_face_loop. rewrite fold_left_app. cbn [fold_left].
  assert (Hpos : Qgtb (confidence d) 0 = true).
  { apply Qgtb_true. apply Qgtb_true in Hthr.
    eapply Qlt_trans; [|exact Hthr]. reflexivity. }
  pose proof (find_face_fold_below h w (confidence d) before Hbefore
                (None, 0%Q) Hpos) as Hmax.
  destruct (fold_left (predictor.find_face_step h w) before (None, 0%Q))
    as [best maxc].
  simpl in Hmax.
  rewrite find_face_step_eq, Hthr, Hmax, Hvalid. simpl andb. cbv iota.
  rewrite find_face_fold_stays by exact Hafter. reflexivity.
Qed.

Lemma padded_crop_size (frame : Frame) (b : predictor.box) :
  box_within (Z.of_nat (rows frame)) (Z.of_nat (cols frame)) b ->
  0 < size (padded_crop frame b).
Proof.
  destruct b as [[[startX startY] endX] endY].
  unfold box_within, padded_crop, size, slice2, Py.slice_len, Py.slice_bound.
  simpl.
  intros (Hx0 & Hx1 & Hx2 & Hy0 & Hy1 & Hy2).
  repeat match goal with
         | |- context [?a <? ?b] => destruct (Z.ltb_spec a b)
         end; try lia.
  all: rewrite !Z2Nat.id by lia; apply Z.mul_pos_pos; [apply Z.mul_pos_pos|]; lia.
Qed.

End FaceLocator.

(* ================================================================== *)
(** * Running the monad *)
(* ================================================================== *)

Ltac unfold_monad_in H :=
  unfold bind, ret, raise, lift, try_except, try_finally, emit, engine_call in H;
  cbn beta iota in H.

(** Follow a computation that is known to have returned: split on every
    call on the way and drop the branches that raise. *)
Ltac run_in H :=
  repeat first
    [ discriminate H
    | progress unfold_monad_in H
    | match type of H with
      | context [match ?x with _ => _ end] => destruct x eqn:?
      end ].

Section Stateless.
Context {cv : OpenCV}.

Lemma stateless_ret {A} (a : A) : stateless (ret (cv := cv) a).
Proof. intros w1 w2. reflexivity. Qed.

Lemma stateless_raise {A} (e : exn) : stateless (raise (cv := cv) (A := A) e).
Proof. intros w1 w2. reflexivity. Qed.

Lemma stateless_lift {A} (r : result A) : stateless (lift (cv := cv) r).
Proof. intros w1 w2. reflexivity. Qed.

Lemma stateless_emit (ev : event) : stateless (emit (cv := cv) ev).
Proof. intros w1 w2. reflexivity. Qed.

Lemma stateless_engine_call {A} (op : EngineState cv -> result A * EngineState cv) :
  (forall s1 s2, fst (op s1) = fst (op s2)) -> stateless (engine_call op).
Proof.
  intros Hop w1 w2. unfold engine_call.
  specialize (Hop (engine w1) (engine w2)).
  destruct (op (engine w1)), (op (engine w2)). exact Hop.
Qed.

Lemma stateless_bind {A B} (m : M cv A) (k : A -> M cv B) :
  stateless m -> (forall a, stateless (k a)) -> stateless (bind m k).
Proof.
  intros Hm Hk w1 w2. unfold bind.
  specialize (Hm w1 w2).
  destruct (m w1) as [[e1|a1] w1'], (m w2) as [[e2|a2] w2'];
    simpl in Hm; try discriminate Hm.
  - simpl. congruence.
  - injection Hm as ->. apply Hk.
Qed.

Lemma stateless_try_except {A} (body : M cv A) (handler : exn -> M cv A) :
  stateless body -> (forall e, stateless (handler e)) ->
  stateless (try_except body handler).
Proof.
  intros Hm Hh w1 w2. unfold try_except.
  specialize (Hm w1 w2).
  destruct (body w1) as [[e1|a1] w1'], (body w2) as [[e2|a2] w2'];
    simpl in Hm; try discriminate Hm.
  - injection Hm as ->. apply Hh.
  - simpl. congruence.
Qed.

Lemma stateless_try_finally {A} (body : M cv A) (cleanup : M cv unit) :
  stateless body -> stateless cleanup -> stateless (try_finally body cleanup).
Proof.
  intros Hm Hc w1 w2. unfold try_finally.
  specialize (Hm w1 w2).
  destruct (body w1) as [r1 w1'], (body w2) as [r2 w2']. simpl in Hm. subst r2.
  specialize (Hc w1' w2').
  destruct (cleanup w1') as [[e1|[]] w1''], (cleanup w2') as [[e2|[]] w2''];
    simpl in Hc; try discriminate Hc.
  - simpl. congruence.
  - reflexivity.
Qed.

End Stateless.

Ltac stateless_step :=
  first
    [ apply stateless_ret
    | apply stateless_raise
    | apply stateless_lift
    | apply stateless_emit
    | apply stateless_bind; [|intros ?]
    | apply stateless_try_except; [|intros ?]
    | apply stateless_try_finally
    | match goal with
      | |- stateless (match ?x with _ => _ end) => destruct x
      end ].

(* ================================================================== *)
(** * Properties of [predict_age_gender] *)
(* ================================================================== *)

Section Pipeline.
Variable py : Python.
Variable cv : OpenCV.
Variable nets : predictor.ModelBundle cv.

Lemma find_face_box (frame : Frame) (w w' : World cv) (b : predictor.box) :
  predictor._find_face cv nets frame w = (inr (Some b), w') ->
  box_within (Z.of_nat (rows frame)) (Z.of_nat (cols frame)) b.
Proof.
  unfold predictor._find_face. intros H.
  destruct (predictor.face_net nets); [|discriminate H].
  unfold shape2 in H. run_in H.
  injection H as Hb _. eapply find_face_loop_within. exact Hb.
Qed.

Lemma argmax_getitem_In {A} (l : list A) (v : list Q) (a : A) :
  rbind (argmax v) (Py.getitem l) = inr a -> In a l.
Proof.
  unfold rbind, Py.getitem. destruct (argmax v) as [e|i]; [discriminate|].
  destruct (nth_error l i) eqn:Hn; [|discriminate].
  intros [= <-]. eapply nth_error_In. exact Hn.
Qed.

(** Every call returns, and returns one of the values of
    [pipeline_value]. *)
Lemma predict_age_gender_returns (image_bytes : bytes) (w : World cv) :
  exists v w',
    predictor.predict_age_gender py cv nets image_bytes w = (inr v, w')
    /\ pipeline_value py v.
Proof.
  unfold predictor.predict_age_gender.
  unfold bind at 1. unfold emit at 1.
  destruct (predictor.age_net nets) as [an|];
    [|eexists _, _; split; [reflexivity|constructor]].
  destruct (predictor.gender_net nets) as [gn|];
    [|eexists _, _; split; [reflexivity|constructor]].
  unfold try_except.
  match goal with
  | |- context [match ?body ?w1 with _ => _ end] =>
      destruct (body w1) as [[e|v] w2] eqn:Hbody
  end.
  - destruct e; eexists _, _; (split; [reflexivity|constructor]).
  - eexists _, _; split; [reflexivity|].
    unfold bind at 1, lift at 1 in Hbody.
    destruct (imdecode cv image_bytes) as [e|[frame|]]; [discriminate Hbody| |].
    2:{ injection Hbody as <- _. constructor. }
    unfold shape2 in Hbody.
    destruct ((Z.of_nat (rows frame) =? 0) || (Z.of_nat (cols frame) =? 0)).
    { injection Hbody as <- _. constructor. }
    unfold bind at 1 in Hbody.
    destruct (predictor._find_face cv nets frame _) as [[e|[b|]] w3] eqn:Hff;
      [discriminate Hbody| |].
    2:{ injection Hbody as <- _. constructor. }
    apply find_face_box in Hff. apply padded_crop_size in Hff.
    destruct b as [[[startX startY] endX] endY]. unfold padded_crop in Hff.
    destruct (size _ =? 0) eqn:Hsz; [apply Z.eqb_eq in Hsz; lia|].
    clear Hsz Hff. unfold predictor.scores in Hbody.
    run_in Hbody.
    injection Hbody as <- _.
    constructor; eapply argmax_getitem_In; eassumption.
Qed.

Lemma pipeline_value_not_failed_crop (v : option dict) :
  pipeline_value py v ->
  v <> Some {[ "error" := lit "Failed to extract face region" ]}.
Proof.
  intros Hv Heq.
  assert (H : match v with Some d => d !! "error" | None => None end
              = Some (lit "Failed to extract face region")).
  { subst v. apply lookup_singleton_eq. }
  clear Heq.
  destruct Hv as [ | |e|e|age gender Ha Hg].
  - discriminate H.
  - rewrite lookup_singleton_eq in H. vm_compute in H. discriminate H.
  - rewrite lookup_singleton_eq in H. simpl in H. discriminate H.
  - rewrite lookup_singleton_eq in H. simpl in H. discriminate H.
  - rewrite !lookup_insert_ne, lookup_empty in H by discriminate.
    discriminate H.
Qed.

(** C6.  For every payload and every state of the engine,
    [predict_age_gender] returns a value and raises nothing: [None],
    an error dictionary, or a dictionary with an age bucket and a
    gender label. *)
Theorem predict_age_gender_never_raises (image_bytes : bytes) (w : World cv) :
  exists (v : option dict) (w' : World cv),
    predictor.predict_age_gender py cv nets image_bytes w = (inr v, w')
    /\ pipeline_value py v.
Proof. apply predict_age_gender_returns. Qed.

(** C10.  A box that [_find_face] returns lies in the image and has an
    area, its padded crop is not empty, and no call of
    [predict_age_gender] returns the error of the empty crop. *)
Theorem failed_to_extract_unreachable :
  (forall (frame : Frame) (w w' : World cv) (b : predictor.box),
      predictor._find_face cv nets frame w = (inr (Some b), w') ->
      box_within (Z.of_nat (rows frame)) (Z.of_nat (cols frame)) b
      /\ 0 < size (padded_crop frame b))
  /\ (forall (image_bytes : bytes) (w : World cv),
      fst (predictor.predict_age_gender py cv nets image_bytes w)
      <> inr (Some {[ "error" := lit "Failed to extract face region" ]})).
Proof.
  split.
  - intros frame w w' b Hb. apply find_face_box in Hb.
    split; [exact Hb|]. apply padded_crop_size. exact Hb.
  - intros image_bytes w H.
    destruct (predict_age_gender_returns image_bytes w) as (v & w' & Hrun & Hv).
    rewrite Hrun in H. simpl in H. injection H as H.
    exact (pipeline_value_not_failed_crop v Hv H).
Qed.


(** On a bundle with the detector missing and the two classifiers
    loaded, which the loader does not produce, a payload that decodes to
    an image gets the result of an image without a face. *)
Theorem missing_detector_reported_as_no_face
    (image_bytes : bytes) (frame : Frame) (w : World cv) (an gn : Net cv) :
  predictor.face_net nets = None ->
  predictor.age_net nets = Some an ->
  predictor.gender_net nets = Some gn ->
  imdecode cv image_bytes = inr (Some frame) ->
  rows frame <> 0%nat ->
  cols frame <> 0%nat ->
  predictor.predict_age_gender py cv nets image_bytes w =
  (inr (Some {[ "error" := lit "No face detected" ]}),
   after w [ev_predict_age_gender image_bytes]).
Proof.
  intros Hface Hage Hgender Hdecode Hrows Hcols.
  unfold predictor.predict_age_gender.
  rewrite Hage, Hgender.
  unfold bind at 1, emit at 1, try_except, bind at 1, lift at 1.
  rewrite Hdecode. unfold shape2.
  destruct (Z.eqb_spec (Z.of_nat (rows frame)) 0) as [H0|_]; [lia|].
  destruct (Z.eqb_spec (Z.of_nat (cols frame)) 0) as [H0|_]; [lia|].
  cbn [orb]. unfold bind, predictor._find_face. rewrite Hface.
  reflexivity.
Qed.

Lemma find_face_stateless (frame : Frame) :
  engine_is_function cv -> stateless (predictor._find_face cv nets frame).
Proof.
  intros [Hdet _]. unfold predictor._find_face.
  destruct (predictor.face_net nets); [|apply stateless_ret].
  unfold shape2. repeat stateless_step.
  apply stateless_engine_call. apply Hdet.
Qed.

Lemma scores_stateless (net : option (Net cv)) (blob : Blob cv) :
  engine_is_function cv -> stateless (predictor.scores cv net blob).
Proof.
  intros [_ Hscores]. unfold predictor.scores.
  destruct net; [|apply stateless_raise].
  apply stateless_engine_call. apply Hscores.
Qed.

Lemma predict_age_gender_stateless (image_bytes : bytes) :
  engine_is_function cv ->
  stateless (predictor.predict_age_gender py cv nets image_bytes).
Proof.
  intros Hfun. unfold predictor.predict_age_gender, shape2.
  repeat first
    [ apply find_face_stateless; exact Hfun
    | apply scores_stateless; exact Hfun
    | stateless_step ].
Qed.

Lemma predict_stateless (file : main.UploadFile) :
  engine_is_function cv -> stateless (main.predict py cv nets file).
Proof.
  intros Hfun. unfold main.predict.
  repeat first
    [ apply predict_age_gender_stateless; exact Hfun
    | stateless_step ].
Qed.

Lemma Predict_stateless (request : grpc_server.PredictRequest) :
  engine_is_function cv -> stateless (grpc_server.Predict py cv nets request).
Proof.
  intros Hfun. unfold grpc_server.Predict.
  repeat first
    [ apply predict_age_gender_stateless; exact Hfun
    | stateless_step ].
Qed.

(** C9.  When the output of a forward pass is a function of the model
    and its input tensor, the result of [predict_age_gender] is a
    function of the payload: two calls on the same bytes return the
    same value whatever the states of the engine, and so do the two
    frontends, whose responses carry the age group. *)
Theorem predict_age_gender_deterministic
    (image_bytes : bytes) (w1 w2 : World cv) :
  engine_is_function cv ->
  fst (predictor.predict_age_gender py cv nets image_bytes w1)
  = fst (predictor.predict_age_gender py cv nets image_bytes w2)
  /\ fst (main.predict py cv nets
            {| main.filename := []; main.read := inr image_bytes |} w1)
     = fst (main.predict py cv nets
              {| main.filename := []; main.read := inr image_bytes |} w2)
  /\ fst (grpc_server.Predict py cv nets
            {| grpc_server.image_data := image_bytes |} w1)
     = fst (grpc_server.Predict py cv nets
              {| grpc_server.image_data := image_bytes |} w2).
Proof.
  intros Hfun. repeat split.
  - apply predict_age_gender_stateless. exact Hfun.
  - apply predict_stateless. exact Hfun.
  - apply Predict_stateless. exact Hfun.
Qed.

End Pipeline.

(* ================================================================== *)
(** * The pipeline on the small engine *)
(* ================================================================== *)

Section PipelineRuns.
Import fixture.

(** C1.  On an image of 64 by 64 pixels with a face of confidence 5/8
    followed by a detection of confidence 7/8 whose clipped box has no
    area, [_find_face] returns the box of the face, the detection of
    lower confidence; with the two detections in the other order it
    returns no box. *)
Theorem find_face_returns_lower_confidence_box :
  fst (predictor._find_face cv0 nets_two (blank 64 64) w0) = inr (Some (16, 16, 48, 48))
  /\ predictor.find_face_loop 64 64 [d_face; d_outside] = Some (clipped_box 64 64 d_face)
  /\ Qgtb (confidence d_outside) predictor.FACE_CONFIDENCE_THRESHOLD = true
  /\ Qgtb (confidence d_outside) (confidence d_face) = true
  /\ box_valid (clipped_box 64 64 d_outside) = false
  /\ predictor.find_face_loop 64 64 [d_outside; d_face] = None.
Proof. repeat split; vm_compute; reflexivity. Qed.

Lemma missing_detector_witness :
  predictor.predict_age_gender py0 cv0 nets_no_detector picture w0 =
  (inr (Some {[ "error" := lit "No face detected" ]}),
   after w0 [ev_predict_age_gender picture])
  /\ predictor.predict_age_gender py0 cv0 nets_no_face picture w0 =
     (inr (Some {[ "error" := lit "No face detected" ]}),
      Build_World cv0 1%nat [ev_predict_age_gender picture]).
Proof.
  split.
  - apply (missing_detector_reported_as_no_face py0 cv0 nets_no_detector
             picture (blank 64 64) w0 age_classifier gender_classifier);
      first [reflexivity | discriminate].
  - reflexivity.
Defined.

Lemma failed_to_extract_witness :
  (box_within 64 64 (16, 16, 48, 48)
   /\ 0 < size (padded_crop (blank 64 64) (16, 16, 48, 48)))
  /\ fst (predictor.predict_age_gender py0 cv0 nets_ok picture w0)
     = inr (Some (<[ "age" := lit "(25-32)" ]> (<[ "gender" := lit "Female" ]> ∅))).
Proof.
  split.
  - apply (proj1 (failed_to_extract_unreachable py0 cv0 nets_ok)
             (blank 64 64) w0 (Build_World cv0 1%nat []) (16, 16, 48, 48)).
    reflexivity.
  - reflexivity.
Defined.

Lemma cv0_is_function : engine_is_function cv0.
Proof.
  split; intros net blob s1 s2; destruct net; reflexivity.
Defined.

Lemma deterministic_witness :
  engine_is_function cv0
  /\ fst (predictor.predict_age_gender py0 cv0 nets_ok picture w0)
     = fst (predictor.predict_age_gender py0 cv0 nets_ok picture
              (Build_World cv0 7%nat [ev_file_close])).
Proof.
  split; [exact cv0_is_function|].
  apply (predict_age_gender_deterministic py0 cv0 nets_ok picture w0
           (Build_World cv0 7%nat [ev_file_close]) cv0_is_function).
Defined.

End PipelineRuns.

(* ================================================================== *)
(** * Properties of the two frontends *)
(* ================================================================== *)

Section Frontends.
Variable py : Python.
Variable cv : OpenCV.
Variable nets : predictor.ModelBundle cv.

Lemma success_lookup_error (age gender : pystr) :
  (<[ "age" := age ]> (<[ "gender" := gender ]> (∅ : dict))) !! "error" = None.
Proof. rewrite !lookup_insert_ne, lookup_empty by discriminate. reflexivity. Qed.

Lemma success_lookup_age (age gender : pystr) :
  (<[ "age" := age ]> (<[ "gender" := gender ]> (∅ : dict))) !! "age" = Some age.
Proof. apply lookup_insert_eq. Qed.

Lemma success_lookup_gender (age gender : pystr) :
  (<[ "age" := age ]> (<[ "gender" := gender ]> (∅ : dict))) !! "gender" = Some gender.
Proof. rewrite lookup_insert_ne by discriminate. apply lookup_insert_eq. Qed.

(** A value of the pipeline without the key [error] is a success. *)
Lemma pipeline_value_success (d : dict) :
  pipeline_value py (Some d) ->
  d !! "error" = None ->
  exists age gender,
    d = <[ "age" := age ]> (<[ "gender" := gender ]> ∅)
    /\ In age predictor.AGE_BUCKETS
    /\ In gender predictor.GENDER_LIST.
Proof.
  intros Hv Herr.
  remember (Some d) as v eqn:Hd.
  destruct Hv as [ | |e|e|age gender Ha Hg]; try discriminate Hd;
    injection Hd as <-.
  - rewrite lookup_singleton_eq in Herr. discriminate Herr.
  - rewrite lookup_singleton_eq in Herr. discriminate Herr.
  - rewrite lookup_singleton_eq in Herr. discriminate Herr.
  - exists age, gender. auto.
Qed.

Lemma predict_on_contents (file : main.UploadFile) (w w' : World cv)
    (b : byte) (contents : bytes) (v : option dict) :
  main.models_loaded cv nets = true ->
  main.read file = inr (b :: contents) ->
  predictor.predict_age_gender py cv nets (b :: contents) (after w [ev_file_close])
  = (inr v, w') ->
  main.predict py cv nets file w = (http_translate py v, w').
Proof.
  intros Hloaded Hread Hrun.
  unfold main.predict. rewrite Hloaded. cbn [negb].
  unfold bind at 1. unfold try_finally, try_except at 1, bind at 1, lift at 1.
  rewrite Hread. unfold ret at 1, emit at 1.
  fold (after w [ev_file_close]).
  unfold try_except, bind at 1. rewrite Hrun.
  unfold http_translate.
  destruct v as [d|]; [|reflexivity].
  destruct (d !! "error") as [err|].
  { destruct (Py.contains _ err); reflexivity. }
  unfold bind at 1.
  destruct (d !! "age") as [age|]; [|reflexivity].
  unfold bind at 1, lift at 1.
  rewrite map_age_to_group_eq. reflexivity.
Qed.

Lemma pipeline_calls_app (t1 t2 : list event) :
  pipeline_calls (t1 ++ t2) = pipeline_calls t1 ++ pipeline_calls t2.
Proof.
  induction t1 as [|ev t1 IH]; [reflexivity|].
  destruct ev; simpl; rewrite IH; reflexivity.
Qed.

Lemma predict_age_gender_not_loaded (image_bytes : bytes) (w : World cv) :
  predictor.age_net nets = None \/ predictor.gender_net nets = None ->
  predictor.predict_age_gender py cv nets image_bytes w
  = (inr None, after w [ev_predict_age_gender image_bytes]).
Proof.
  intros H. unfold predictor.predict_age_gender, bind, emit.
  destruct H as [-> | ->]; [reflexivity|].
  destruct (predictor.age_net nets); reflexivity.
Qed.

Lemma predict_age_gender_undecodable (image_bytes : bytes) (w : World cv) :
  imdecode cv image_bytes = inr None ->
  predictor.predict_age_gender py cv nets image_bytes w
  = (inr None, after w [ev_predict_age_gender image_bytes]).
Proof.
  intros H. unfold predictor.predict_age_gender.
  unfold bind at 1, emit.
  destruct (predictor.age_net nets); [|reflexivity].
  destruct (predictor.gender_net nets); [|reflexivity].
  unfold try_except, bind at 1, lift at 1. rewrite H. reflexivity.
Qed.

Lemma lower_gender (gender : pystr) :
  In gender predictor.GENDER_LIST ->
  In (Py.lower py gender) [lit "male"; lit "female"].
Proof.
  intros [<- | [<- | []]]; [left | right; left]; reflexivity.
Qed.

(** C8.  When the pipeline returns a dictionary without an error on the
    payload of an RPC request, that dictionary holds an age bucket and
    a gender label, and the response of [Predict] carries the age
    group [map_age_to_group] gives for the bucket, the gender label in
    lower case, which is [male] or [female], and the confidence
    0.95; the handler sets no status code. *)
Theorem Predict_success_response
    (request : grpc_server.PredictRequest) (w w' : World cv) (d : dict) :
  grpc_server.image_data request <> [] ->
  predictor.predict_age_gender py cv nets (grpc_server.image_data request) w
  = (inr (Some d), w') ->
  d !! "error" = None ->
  exists age gender group,
    d = <[ "age" := age ]> (<[ "gender" := gender ]> ∅)
    /\ In age predictor.AGE_BUCKETS
    /\ In gender predictor.GENDER_LIST
    /\ grpc_server.map_age_to_group py age = inr group
    /\ In group AGE_GROUPS
    /\ grpc_server.Predict py cv nets request w
       = (inr {| grpc_server.age_group := group;
                 grpc_server.gender := Py.lower py gender;
                 grpc_server.confidence := 95 # 100 |}, w')
    /\ In (Py.lower py gender) [lit "male"; lit "female"].
Proof.
  intros Hne Hrun Herr.
  destruct (predict_age_gender_returns py cv nets
              (grpc_server.image_data request) w) as (v & w1 & Hrun' & Hv).
  rewrite Hrun in Hrun'. injection Hrun' as <- <-.
  destruct (pipeline_value_success d Hv Herr) as (age & gender & -> & Hage & Hgender).
  destruct (map_age_to_group_returns py age) as (group & Hgroup & Hin).
  exists age, gender, group. repeat split; auto using lower_gender.
  unfold grpc_server.Predict.
  destruct (grpc_server.image_data request) as [|b rest] eqn:Hdata; [congruence|].
  unfold try_except, bind at 1. rewrite Hrun.
  rewrite success_lookup_error.
  unfold bind, lift, grpc_server.dict_getitem.
  rewrite success_lookup_age, success_lookup_gender, Hgroup. reflexivity.
Qed.


(** C3, as the code has it.  With a model missing, the HTTP handler
    raises the status 503 before it reads the upload or enters the
    pipeline.  The RPC handler has no such gate: on a payload that is
    not empty it enters the pipeline, and with the age or the gender
    model missing the pipeline returns [None] and the handler sets the
    status [INTERNAL]. *)
Theorem not_ready_responses
    (file : main.UploadFile) (request : grpc_server.PredictRequest) (w : World cv) :
  main.models_loaded cv nets = false ->
  (main.predict py cv nets file w
   = (inl (HTTPException main.HTTP_503_SERVICE_UNAVAILABLE
             (lit "Models are not loaded, service cannot process requests.")), w)
   /\ main.http_status (fst (main.predict py cv nets file w)) = 503)
  /\ (predictor.age_net nets = None \/ predictor.gender_net nets = None ->
      grpc_server.image_data request <> [] ->
      grpc_server.Predict py cv nets request w
      = (inr grpc_server.PredictResponse_default,
         after w [ev_predict_age_gender (grpc_server.image_data request);
                  ev_set_code INTERNAL;
                  ev_set_details (lit "Prediction failed")])).
Proof.
  intros Hnot.
  assert (Hhttp : main.predict py cv nets file w
                  = (inl (HTTPException main.HTTP_503_SERVICE_UNAVAILABLE
                            (lit "Models are not loaded, service cannot process requests.")),
                     w)).
  { unfold main.predict. rewrite Hnot. reflexivity. }
  split; [split; [exact Hhttp | rewrite Hhttp; reflexivity]|].
  intros Hnone Hne.
  unfold grpc_server.Predict.
  destruct (grpc_server.image_data request) as [|b rest]; [congruence|].
  unfold try_except, bind at 1.
  rewrite (predict_age_gender_not_loaded _ _ Hnone).
  unfold bind, emit, ret, after. simpl.
  rewrite <- !app_assoc. reflexivity.
Qed.

(** C7, as the code has it.  On an empty upload the HTTP handler
    answers 400 when the models are loaded and 503 when they are not;
    on an empty payload the RPC handler sets [INVALID_ARGUMENT]
    whatever the models; neither enters the pipeline. *)
Theorem empty_payload_rejected (name : pystr) (w : World cv) :
  (main.http_status
     (fst (main.predict py cv nets {| main.filename := name; main.read := inr [] |} w))
   = if main.models_loaded cv nets then 400 else 503)
  /\ pipeline_calls
       (trace (snd (main.predict py cv nets
                      {| main.filename := name; main.read := inr [] |} w)))
     = pipeline_calls (trace w)
  /\ grpc_server.Predict py cv nets {| grpc_server.image_data := [] |} w
     = (inr grpc_server.PredictResponse_default,
        after w [ev_set_code INVALID_ARGUMENT;
                 ev_set_details (lit "Empty image data")])
  /\ grpc_server.rpc_status
       [ev_set_code INVALID_ARGUMENT; ev_set_details (lit "Empty image data")]
     = INVALID_ARGUMENT
  /\ pipeline_calls
       (trace (snd (grpc_server.Predict py cv nets {| grpc_server.image_data := [] |} w)))
     = pipeline_calls (trace w).
Proof.
  assert (Hrpc : grpc_server.Predict py cv nets {| grpc_server.image_data := [] |} w
                 = (inr grpc_server.PredictResponse_default,
                    after w [ev_set_code INVALID_ARGUMENT;
                             ev_set_details (lit "Empty image data")])).
  { unfold grpc_server.Predict, bind, emit, ret, after. simpl.
    rewrite <- app_assoc. reflexivity. }
  assert (Hhttp : main.predict py cv nets
                    {| main.filename := name; main.read := inr [] |} w
                  = if main.models_loaded cv nets
                    then (inl (HTTPException main.HTTP_400_BAD_REQUEST
                                 (lit "Error reading file: "
                                  ++ exc_str py (HTTPException main.HTTP_400_BAD_REQUEST
                                                   (lit "Empty file received.")))),
                          after w [ev_file_close])
                    else (inl (HTTPException main.HTTP_503_SERVICE_UNAVAILABLE
                                 (lit "Models are not loaded, service cannot process requests.")),
                          w)).
  { unfold main.predict. destruct (main.models_loaded cv nets); reflexivity. }
  rewrite Hhttp, Hrpc.
  repeat split.
  - destruct (main.models_loaded cv nets); reflexivity.
  - destruct (main.models_loaded cv nets); [|reflexivity].
    simpl. rewrite pipeline_calls_app, app_nil_r. reflexivity.
  - simpl. rewrite pipeline_calls_app, app_nil_r. reflexivity.
Qed.

Lemma http_translate_status (v : option dict) :
  pipeline_value py v ->
  In (main.http_status (http_translate py v)) [200; 400; 500].
Proof.
  intros Hv. unfold http_translate.
  destruct Hv as [ | |e|e|age gender Ha Hg].
  - simpl; tauto.
  - rewrite lookup_singleton_eq. destruct (Py.contains _ _); simpl; tauto.
  - rewrite lookup_singleton_eq. destruct (Py.contains _ _); simpl; tauto.
  - rewrite lookup_singleton_eq. destruct (Py.contains _ _); simpl; tauto.
  - rewrite success_lookup_error, success_lookup_age, map_age_to_group_eq.
    simpl; tauto.
Qed.

(** C4, as the code has it.  With the models loaded, the status of
    POST /predict is 400 for an upload that is empty or cannot be read
    and for an error of the pipeline that contains [No face detected];
    it is 500 for a payload the engine cannot decode, for every other
    error of the pipeline and when the pipeline returns [None]; and on
    a success it is 200 with the bucket under [age], one of the eight,
    [Male] or [Female] under [gender], and the group of the bucket
    under [age_group]. *)
Theorem predict_status (file : main.UploadFile) (w : World cv) :
  main.models_loaded cv nets = true ->
  (main.read file = inr [] ->
   main.http_status (fst (main.predict py cv nets file w)) = 400)
  /\ (forall e, main.read file = inl e ->
       main.http_status (fst (main.predict py cv nets file w)) = 400)
  /\ (forall contents,
       main.read file = inr contents -> contents <> [] ->
       imdecode cv contents = inr None ->
       main.http_status (fst (main.predict py cv nets file w)) = 500)
  /\ (forall contents v w',
       main.read file = inr contents -> contents <> [] ->
       predictor.predict_age_gender py cv nets contents (after w [ev_file_close])
       = (inr v, w') ->
       (v = None ->
        main.http_status (fst (main.predict py cv nets file w)) = 500)
       /\ (forall d err, v = Some d -> d !! "error" = Some err ->
            main.http_status (fst (main.predict py cv nets file w))
            = if Py.contains (lit "No face detected") err then 400 else 500)
       /\ (forall d, v = Some d -> d !! "error" = None ->
            exists age gender group,
              d = <[ "age" := age ]> (<[ "gender" := gender ]> ∅)
              /\ d !! "age" = Some age
              /\ d !! "gender" = Some gender
              /\ In age predictor.AGE_BUCKETS
              /\ In gender predictor.GENDER_LIST
              /\ grpc_server.map_age_to_group py age = inr group
              /\ main.predict py cv nets file w
                 = (inr {| main.status_code := 200;
                           main.content := <[ "age_group" := group ]> d |},
                    w')
              /\ main.content_of (fst (main.predict py cv nets file w)) !! "age"
                 = Some age
              /\ main.content_of (fst (main.predict py cv nets file w)) !! "gender"
                 = Some gender
              /\ main.content_of (fst (main.predict py cv nets file w)) !! "age_group"
                 = Some group))
  /\ In (main.http_status (fst (main.predict py cv nets file w))) [200; 400; 500].
Proof.
  intros Hloaded.
  assert (Hrun : forall contents v w',
             main.read file = inr contents -> contents <> [] ->
             predictor.predict_age_gender py cv nets contents (after w [ev_file_close])
             = (inr v, w') ->
             main.predict py cv nets file w = (http_translate py v, w')).
  { intros [|b contents] v w' Hread Hne Hv; [congruence|].
    eapply predict_on_contents; eassumption. }
  split; [|split; [|split; [|split]]].
  - intros Hread. unfold main.predict. rewrite Hloaded. cbn [negb].
    unfold bind at 1, try_finally, try_except, bind at 1, lift. rewrite Hread.
    reflexivity.
  - intros e Hread. unfold main.predict. rewrite Hloaded. cbn [negb].
    unfold bind at 1, try_finally, try_except, bind at 1, lift. rewrite Hread.
    reflexivity.
  - intros contents Hread Hne Hdecode.
    rewrite (Hrun contents None _ Hread Hne
               (predict_age_gender_undecodable contents _ Hdecode)).
    reflexivity.
  - intros contents v w' Hread Hne Hv.
    rewrite (Hrun contents v w' Hread Hne Hv).
    split; [|split].
    + intros ->. reflexivity.
    + intros d err -> Herr. unfold http_translate. rewrite Herr.
      destruct (Py.contains _ err); reflexivity.
    + intros d -> Herr.
      destruct (predict_age_gender_returns py cv nets contents
                  (after w [ev_file_close])) as (v & w1 & Hv' & Hvalue).
      rewrite Hv in Hv'. injection Hv' as <- <-.
      destruct (pipeline_value_success d Hvalue Herr)
        as (age & gender & -> & Hage & Hgender).
      destruct (map_age_to_group_returns py age) as (group & Hgroup & _).
      assert (Hbody : http_translate py
                        (Some (<[ "age" := age ]> (<[ "gender" := gender ]> ∅)))
                      = inr {| main.status_code := 200;
                               main.content :=
                                 <[ "age_group" := group ]>
                                   (<[ "age" := age ]> (<[ "gender" := gender ]> ∅)) |}).
      { unfold http_translate.
        rewrite success_lookup_error, success_lookup_age, Hgroup. reflexivity. }
      exists age, gender, group.
      split; [reflexivity|]. split; [apply success_lookup_age|].
      split; [apply success_lookup_gender|].
      split; [exact Hage|]. split; [exact Hgender|]. split; [exact Hgroup|].
      rewrite Hbody. cbn [fst main.content_of main.content].
      split; [reflexivity|].
      split; [rewrite lookup_insert_ne by discriminate; apply success_lookup_age|].
      split; [rewrite lookup_insert_ne by discriminate; apply success_lookup_gender|].
      apply lookup_insert_eq.
  - destruct (main.read file) as [e|[|b contents]] eqn:Hread.
    + unfold main.predict. rewrite Hloaded. cbn [negb].
      unfold bind at 1, try_finally, try_except, bind at 1, lift. rewrite Hread.
      simpl; tauto.
    + unfold main.predict. rewrite Hloaded. cbn [negb].
      unfold bind at 1, try_finally, try_except, bind at 1, lift. rewrite Hread.
      simpl; tauto.
    + destruct (predict_age_gender_returns py cv nets (b :: contents)
                  (after w [ev_file_close])) as (v & w1 & Hv & Hvalue).
      rewrite (Hrun (b :: contents) v w1 eq_refl ltac:(discriminate) Hv).
      apply http_translate_status. exact Hvalue.
Qed.


End Frontends.

(* ================================================================== *)
(** * The frontends on the small engine *)
(* ================================================================== *)

Section FrontendRuns.
Import fixture.

(** With all three models missing, [Predict] on a payload that is not
    empty enters the pipeline and sets [INTERNAL], not [UNAVAILABLE]. *)
Lemma rpc_not_ready_counterexample :
  main.models_loaded cv0 nets_none = false
  /\ grpc_server.Predict py0 cv0 nets_none (rpc picture) w0
     = (inr grpc_server.PredictResponse_default,
        Build_World cv0 0%nat
          [ev_predict_age_gender picture; ev_set_code INTERNAL;
           ev_set_details (lit "Prediction failed")])
  /\ grpc_server.rpc_status
       (trace (snd (grpc_server.Predict py0 cv0 nets_none (rpc picture) w0)))
     = INTERNAL
  /\ INTERNAL <> UNAVAILABLE
  /\ pipeline_calls
       (trace (snd (grpc_server.Predict py0 cv0 nets_none (rpc picture) w0)))
     = [picture].
Proof. repeat split; try reflexivity. discriminate. Qed.

Lemma not_ready_witness :
  main.models_loaded cv0 nets_none = false
  /\ main.http_status (fst (main.predict py0 cv0 nets_none (upload picture) w0)) = 503
  /\ snd (main.predict py0 cv0 nets_none (upload picture) w0) = w0
  /\ grpc_server.Predict py0 cv0 nets_none (rpc picture) w0
     = (inr grpc_server.PredictResponse_default,
        after w0 [ev_predict_age_gender picture; ev_set_code INTERNAL;
                  ev_set_details (lit "Prediction failed")]).
Proof.
  pose proof (not_ready_responses py0 cv0 nets_none (upload picture) (rpc picture) w0
                eq_refl) as [[Hhttp Hstatus] Hrpc].
  split; [reflexivity|]. split; [exact Hstatus|].
  split; [rewrite Hhttp; reflexivity|].
  apply Hrpc; [left; reflexivity | discriminate].
Defined.

(** With the models missing, an empty upload gets 503, not 400. *)
Lemma empty_upload_not_ready_counterexample :
  main.read (upload []) = inr []
  /\ main.models_loaded cv0 nets_none = false
  /\ main.http_status (fst (main.predict py0 cv0 nets_none (upload []) w0)) = 503
  /\ 503 <> 400.
Proof. repeat split; try reflexivity. discriminate. Qed.

(** With the models loaded, a payload the engine cannot decode gets
    500, not 400. *)
Lemma undecodable_upload_counterexample :
  main.models_loaded cv0 nets_ok = true
  /\ garbage <> []
  /\ imdecode cv0 garbage = inr None
  /\ main.http_status (fst (main.predict py0 cv0 nets_ok (upload garbage) w0)) = 500
  /\ 500 <> 400.
Proof. repeat split; try reflexivity; discriminate. Qed.

Lemma predict_status_witness :
  main.models_loaded cv0 nets_ok = true
  /\ main.http_status (fst (main.predict py0 cv0 nets_ok (upload garbage) w0)) = 500
  /\ main.predict py0 cv0 nets_ok (upload picture) w0
     = (inr {| main.status_code := 200;
               main.content :=
                 <[ "age_group" := lit "young_adult" ]>
                   (<[ "age" := lit "(25-32)" ]> (<[ "gender" := lit "Female" ]> ∅)) |},
        Build_World cv0 3%nat [ev_file_close; ev_predict_age_gender picture]).
Proof.
  pose proof (predict_status py0 cv0 nets_ok (upload garbage) w0 eq_refl)
    as (_ & _ & Hundecodable & _).
  split; [reflexivity|].
  split; [apply (Hundecodable garbage); [reflexivity | discriminate | reflexivity]|].
  reflexivity.
Defined.

Lemma Predict_success_witness :
  grpc_server.image_data (rpc picture) <> []
  /\ exists age gender group,
      (<[ "age" := lit "(25-32)" ]> (<[ "gender" := lit "Female" ]> ∅) : dict)
      = <[ "age" := age ]> (<[ "gender" := gender ]> ∅)
      /\ In age predictor.AGE_BUCKETS
      /\ In gender predictor.GENDER_LIST
      /\ grpc_server.map_age_to_group py0 age = inr group
      /\ In group AGE_GROUPS
      /\ grpc_server.Predict py0 cv0 nets_ok (rpc picture) w0
         = (inr {| grpc_server.age_group := group;
                   grpc_server.gender := Py.lower py0 gender;
                   grpc_server.confidence := 95 # 100 |},
            Build_World cv0 3%nat [ev_predict_age_gender picture])
      /\ In (Py.lower py0 gender) [lit "male"; lit "female"].
Proof.
  split; [discriminate|].
  apply (Predict_success_response py0 cv0 nets_ok (rpc picture) w0
           (Build_World cv0 3%nat [ev_predict_age_gender picture])
           (<[ "age" := lit "(25-32)" ]> (<[ "gender" := lit "Female" ]> ∅)));
    [discriminate | reflexivity | reflexivity].
Defined.

End FrontendRuns.

(* ================================================================== *)
(** * What a computation reads and what it adds to the trace *)
(* ================================================================== *)

Section TraceLinear.
Context {cv : OpenCV}.

Lemma trace_linear_ret {A} (a : A) : trace_linear (ret (cv := cv) a).
Proof.
  intros [s t]. unfold run_fresh, ret. simpl. rewrite app_nil_r. reflexivity.
Qed.

Lemma trace_linear_raise {A} (e : exn) : trace_linear (raise (cv := cv) (A := A) e).
Proof.
  intros [s t]. unfold run_fresh, raise. simpl. rewrite app_nil_r. reflexivity.
Qed.

Lemma trace_linear_lift {A} (r : result A) : trace_linear (lift (cv := cv) r).
Proof.
  intros [s t]. unfold run_fresh, lift. simpl. rewrite app_nil_r. reflexivity.
Qed.

Lemma trace_linear_emit (ev : event) : trace_linear (emit (cv := cv) ev).
Proof. intros [s t]. reflexivity. Qed.

Lemma trace_linear_engine_call {A} (op : EngineState cv -> result A * EngineState cv) :
  trace_linear (engine_call op).
Proof.
  intros [s t]. unfold run_fresh, engine_call. simpl.
  destruct (op s) as [r s']. simpl. rewrite app_nil_r. reflexivity.
Qed.

(** The shape of a run of a computation that is [trace_linear]. *)
Lemma trace_linear_run {A} (m : M cv A) (s : EngineState cv) (t : list event) :
  trace_linear m ->
  exists r s' evs,
    run_fresh m s = (r, s', evs)
    /\ m (Build_World cv s t) = (r, Build_World cv s' (t ++ evs)).
Proof.
  intros Hm. specialize (Hm (Build_World cv s t)). simpl in Hm.
  destruct (run_fresh m s) as [[r s'] evs]. eauto.
Qed.

Lemma trace_linear_bind {A B} (m : M cv A) (k : A -> M cv B) :
  trace_linear m -> (forall a, trace_linear (k a)) -> trace_linear (bind m k).
Proof.
  intros Hm Hk [s t]. simpl.
  destruct (trace_linear_run m s t Hm) as (r & s1 & e1 & Hfresh & Hrun).
  unfold run_fresh in Hfresh |- *. unfold bind. rewrite Hrun.
  destruct (m (Build_World cv s [])) as [r0 w0]. injection Hfresh as <- <- <-.
  destruct r0 as [e|a]; [reflexivity|]. destruct w0 as [s0 t0]. simpl.
  destruct (trace_linear_run (k a) s0 (t ++ t0) (Hk a)) as (r2 & s2 & e2 & Hf2 & Hr2).
  destruct (trace_linear_run (k a) s0 t0 (Hk a)) as (r3 & s3 & e3 & Hf3 & Hr3).
  rewrite Hf2 in Hf3. injection Hf3 as <- <- <-.
  rewrite Hr2, Hr3. simpl. rewrite app_assoc. reflexivity.
Qed.

Lemma trace_linear_try_except {A} (body : M cv A) (handler : exn -> M cv A) :
  trace_linear body -> (forall e, trace_linear (handler e)) ->
  trace_linear (try_except body handler).
Proof.
  intros Hm Hk [s t]. simpl.
  destruct (trace_linear_run body s t Hm) as (r & s1 & e1 & Hfresh & Hrun).
  unfold run_fresh in Hfresh |- *. unfold try_except. rewrite Hrun.
  destruct (body (Build_World cv s [])) as [r0 w0]. injection Hfresh as <- <- <-.
  destruct r0 as [e|a]; [|reflexivity]. destruct w0 as [s0 t0]. simpl.
  destruct (trace_linear_run (handler e) s0 (t ++ t0) (Hk e)) as (r2 & s2 & e2 & Hf2 & Hr2).
  destruct (trace_linear_run (handler e) s0 t0 (Hk e)) as (r3 & s3 & e3 & Hf3 & Hr3).
  rewrite Hf2 in Hf3. injection Hf3 as <- <- <-.
  rewrite Hr2, Hr3. simpl. rewrite app_assoc. reflexivity.
Qed.

Lemma trace_linear_try_finally {A} (body : M cv A) (cleanup : M cv unit) :
  trace_linear body -> trace_linear cleanup ->
  trace_linear (try_finally body cleanup).
Proof.
  intros Hm Hc [s t]. simpl.
  destruct (trace_linear_run body s t Hm) as (r & s1 & e1 & Hfresh & Hrun).
  unfold run_fresh in Hfresh |- *. unfold try_finally. rewrite Hrun.
  destruct (body (Build_World cv s [])) as [r0 w0]. injection Hfresh as <- <- <-.
  destruct w0 as [s0 t0]. simpl.
  destruct (trace_linear_run cleanup s0 (t ++ t0) Hc) as (r2 & s2 & e2 & Hf2 & Hr2).
  destruct (trace_linear_run cleanup s0 t0 Hc) as (r3 & s3 & e3 & Hf3 & Hr3).
  rewrite Hf2 in Hf3. injection Hf3 as <- <- <-.
  rewrite Hr2, Hr3. destruct r2 as [e|[]]; simpl; rewrite app_assoc; reflexivity.
Qed.

End TraceLinear.

Ltac trace_linear_step :=
  first
    [ apply trace_linear_ret
    | apply trace_linear_raise
    | apply trace_linear_lift
    | apply trace_linear_emit
    | apply trace_linear_engine_call
    | apply trace_linear_bind; [|intros ?]
    | apply trace_linear_try_except; [|intros ?]
    | apply trace_linear_try_finally
    | match goal with
      | |- trace_linear (match ?x with _ => _ end) => destruct x
      end ].

Section Footprint.
Variable py : Python.
Variable cv : OpenCV.
Variable nets : predictor.ModelBundle cv.

Lemma predict_age_gender_trace_linear (image_bytes : bytes) :
  trace_linear (predictor.predict_age_gender py cv nets image_bytes).
Proof.
  unfold predictor.predict_age_gender, predictor._find_face, predictor.scores, shape2.
  repeat trace_linear_step.
Qed.

Lemma predict_trace_linear (file : main.UploadFile) :
  trace_linear (main.predict py cv nets file).
Proof.
  unfold main.predict.
  repeat first [ apply predict_age_gender_trace_linear | trace_linear_step ].
Qed.

Lemma Predict_trace_linear (request : grpc_server.PredictRequest) :
  trace_linear (grpc_server.Predict py cv nets request).
Proof.
  unfold grpc_server.Predict.
  repeat first [ apply predict_age_gender_trace_linear | trace_linear_step ].
Qed.

End Footprint.

(* ================================================================== *)
(** * More on the model loader, [_find_face] and [predict_age_gender] *)
(* ================================================================== *)

Section Loader.
Variable cv : OpenCV.

(** X1.  The loader reads the face, age and gender models in this order
    and stops at the first failure, which alone decides the outcome:
    all three globals are [None] when it is a [cv2.error], and any other
    exception leaves the module, whatever the later loads would give.
    When every load succeeds the globals are the three models.  So the
    loader never returns some models loaded and others missing. *)
Theorem load_models_outcome :
  (forall e,
      readNet cv FACE_MODEL FACE_PROTO = inl e ->
      predictor.load_models cv = failed_load cv e)
  /\ (forall f e,
      readNet cv FACE_MODEL FACE_PROTO = inr f ->
      readNet cv AGE_MODEL AGE_PROTO = inl e ->
      predictor.load_models cv = failed_load cv e)
  /\ (forall f a e,
      readNet cv FACE_MODEL FACE_PROTO = inr f ->
      readNet cv AGE_MODEL AGE_PROTO = inr a ->
      readNet cv GENDER_MODEL GENDER_PROTO = inl e ->
      predictor.load_models cv = failed_load cv e)
  /\ (forall f a g,
      readNet cv FACE_MODEL FACE_PROTO = inr f ->
      readNet cv AGE_MODEL AGE_PROTO = inr a ->
      readNet cv GENDER_MODEL GENDER_PROTO = inr g ->
      predictor.load_models cv
      = inr (predictor.Build_ModelBundle cv (Some f) (Some a) (Some g)))
  /\ (forall loaded,
      predictor.load_models cv = inr loaded ->
      main.models_loaded cv loaded = true
      \/ loaded = predictor.Build_ModelBundle cv None None None).
Proof.
  unfold predictor.load_models, failed_load, rbind.
  split; [intros e ->; destruct e; reflexivity|].
  split; [intros f e -> ->; destruct e; reflexivity|].
  split; [intros f a e -> -> ->; destruct e; reflexivity|].
  split; [intros f a g -> -> ->; reflexivity|].
  intros loaded.
  destruct (readNet cv FACE_MODEL FACE_PROTO) as [e|f].
  { destruct e; intros [= <-]; right; reflexivity. }
  destruct (readNet cv AGE_MODEL AGE_PROTO) as [e|a].
  { destruct e; intros [= <-]; right; reflexivity. }
  destruct (readNet cv GENDER_MODEL GENDER_PROTO) as [e|g].
  { destruct e; intros [= <-]; right; reflexivity. }
  intros [= <-]. left. reflexivity.
Qed.

End Loader.

Section ArgMax.

Lemma Qgtb_false (a b : Q) : Qgtb a b = false <-> (a <= b)%Q.
Proof.
  unfold Qgtb. rewrite negb_false_iff. apply Qle_bool_iff.
Qed.

Lemma argmax_from_spec (v : list Q) :
  forall (p : list Q) (best : Q) (besti : nat),
    nth_error p besti = Some best ->
    (forall y, In y p -> (y <= best)%Q) ->
    (forall j y, (j < besti)%nat -> nth_error p j = Some y -> (y < best)%Q) ->
    exists x,
      nth_error (p ++ v) (argmax_from best besti (length p) v) = Some x
      /\ (forall y, In y (p ++ v) -> (y <= x)%Q)
      /\ (forall j y, (j < argmax_from best besti (length p) v)%nat ->
                      nth_error (p ++ v) j = Some y -> (y < x)%Q).
Proof.
  induction v as [|x v IH]; intros p best besti Hnth Hmax Hfirst.
  - simpl. rewrite app_nil_r. exists best. auto.
  - assert (Hlen : (besti < length p)%nat).
    { apply nth_error_Some. congruence. }
    assert (Happ : p ++ x :: v = (p ++ [x]) ++ v) by (rewrite <- app_assoc; reflexivity).
    assert (HS : S (length p) = length (p ++ [x])).
    { rewrite length_app. simpl. lia. }
    cbn [argmax_from]. rewrite Happ, HS.
    destruct (Qgtb x best) eqn:Hgt.
    + apply Qgtb_true in Hgt.
      apply IH.
      * rewrite nth_error_app2 by lia. rewrite Nat.sub_diag. reflexivity.
      * intros y Hy. apply in_app_or in Hy. destruct Hy as [Hy|[<-|[]]].
        -- apply Qlt_le_weak. eapply Qle_lt_trans; [apply Hmax; exact Hy|exact Hgt].
        -- apply Qle_refl.
      * intros j y Hj Hy. rewrite nth_error_app1 in Hy by lia.
        eapply Qle_lt_trans; [|exact Hgt]. apply Hmax.
        eapply nth_error_In. exact Hy.
    + apply Qgtb_false in Hgt.
      apply IH.
      * rewrite nth_error_app1 by lia. exact Hnth.
      * intros y Hy. apply in_app_or in Hy. destruct Hy as [Hy|[<-|[]]].
        -- apply Hmax. exact Hy.
        -- exact Hgt.
      * intros j y Hj Hy. rewrite nth_error_app1 in Hy by lia.
        eapply Hfirst; eassumption.
Qed.

(** X2.  [argmax] raises [ValueError] on the empty vector and on no
    other; on a vector with entries it returns an index of the vector
    whose entry is a greatest one, and every entry before it is strictly
    smaller (the first maximum wins). *)
Theorem argmax_spec (v : list Q) :
  (argmax v = inl ValueError <-> v = [])
  /\ (v <> [] ->
      exists i x,
        argmax v = inr i
        /\ (i < length v)%nat
        /\ nth_error v i = Some x
        /\ (forall y, In y v -> (y <= x)%Q)
        /\ (forall j y, (j < i)%nat -> nth_error v j = Some y -> (y < x)%Q)).
Proof.
  split.
  - destruct v; simpl; split; congruence.
  - destruct v as [|x v]; [congruence|]. intros _.
    destruct (argmax_from_spec v [x] x 0%nat eq_refl) as (m & Hnth & Hmax & Hfirst).
    + intros y [<-|[]]. apply Qle_refl.
    + intros j y Hj. lia.
    + cbn [app length] in Hnth, Hmax, Hfirst.
      exists (argmax_from x 0%nat 1%nat v), m.
      split; [reflexivity|]. split; [|auto].
      apply nth_error_Some. congruence.
Qed.

End ArgMax.

Section FaceLocatorRuns.
Variable cv : OpenCV.
Variable nets : predictor.ModelBundle cv.

(** A run of [_find_face] in which the engine answers. *)
Lemma find_face_run (frame : Frame) (w : World cv) (net : Net cv) (blob : Blob cv)
    (ds : list detection) (s' : EngineState cv) :
  predictor.face_net nets = Some net ->
  blobFromImage cv frame 1%Q (300, 300) (inject_Z 104, inject_Z 177, inject_Z 123) false
  = inr blob ->
  forward_detections cv net blob (engine w) = (inr ds, s') ->
  predictor._find_face cv nets frame w
  = (inr (predictor.find_face_loop (Z.of_nat (rows frame)) (Z.of_nat (cols frame)) ds),
     Build_World cv s' (trace w)).
Proof.
  intros Hnet Hblob Hforward.
  unfold predictor._find_face, shape2. rewrite Hnet.
  unfold bind, lift, engine_call, ret. rewrite Hblob, Hforward. reflexivity.
Qed.

(** X3.  With the detector loaded and its output read, the result of
    [_find_face] is decided by the first detection of greatest
    confidence, when that confidence is above the threshold: its clipped
    box when the box has an area, and otherwise what the loop gives on
    the detections before it.  The call changes the engine's state only
    by the forward pass and adds nothing to the trace. *)
Theorem find_face_first_maximum (frame : Frame) (w : World cv) (net : Net cv)
    (blob : Blob cv) (before after_ : list detection) (d : detection)
    (s' : EngineState cv) :
  predictor.face_net nets = Some net ->
  blobFromImage cv frame 1%Q (300, 300) (inject_Z 104, inject_Z 177, inject_Z 123) false
  = inr blob ->
  forward_detections cv net blob (engine w) = (inr (before ++ d :: after_), s') ->
  Qgtb (confidence d) predictor.FACE_CONFIDENCE_THRESHOLD = true ->
  (forall x, In x before -> Qgtb (confidence d) (confidence x) = true) ->
  (forall x, In x after_ -> Qgtb (confidence x) (confidence d) = false) ->
  predictor._find_face cv nets frame w
  = (inr (if box_valid (clipped_box (Z.of_nat (rows frame)) (Z.of_nat (cols frame)) d)
          then Some (clipped_box (Z.of_nat (rows frame)) (Z.of_nat (cols frame)) d)
          else predictor.find_face_loop
                 (Z.of_nat (rows frame)) (Z.of_nat (cols frame)) before),
     Build_World cv s' (trace w)).
Proof.
  intros Hnet Hblob Hforward Hthr Hbefore Hafter.
  rewrite (find_face_run frame w net blob _ s' Hnet Hblob Hforward).
  f_equal. f_equal.
  destruct (box_valid _) eqn:Hvalid.
  - apply find_face_loop_best; assumption.
  - apply find_face_loop_stale; assumption.
Qed.

(** X4.  A box that [_find_face] returns is the clipped pixel box of one
    of the detections the detector gave, a detection of confidence
    above 0.5; the box has an area and lies in
    [[0, width-1] x [0, height-1]]. *)
Theorem find_face_provenance (frame : Frame) (w w' : World cv) (b : predictor.box) :
  predictor._find_face cv nets frame w = (inr (Some b), w') ->
  exists net blob ds d,
    predictor.face_net nets = Some net
    /\ blobFromImage cv frame 1%Q (300, 300)
         (inject_Z 104, inject_Z 177, inject_Z 123) false = inr blob
    /\ forward_detections cv net blob (engine w) = (inr ds, engine w')
    /\ In d ds
    /\ (predictor.FACE_CONFIDENCE_THRESHOLD < confidence d)%Q
    /\ b = clipped_box (Z.of_nat (rows frame)) (Z.of_nat (cols frame)) d
    /\ box_within (Z.of_nat (rows frame)) (Z.of_nat (cols frame)) b
    /\ trace w' = trace w.
Proof.
  unfold predictor._find_face, shape2. intros H.
  destruct (predictor.face_net nets) as [net|]; [|discriminate H].
  unfold bind, lift, engine_call, ret in H.
  destruct (blobFromImage cv frame _ _ _ _) as [e|blob] eqn:Hblob; [discriminate H|].
  destruct (forward_detections cv net blob (engine w)) as [[e|ds] s'] eqn:Hforward;
    [discriminate H|].
  injection H as Hb <-.
  destruct (find_face_loop_origin _ _ _ _ Hb) as (d & Hin & Hthr & -> & Hvalid).
  exists net, blob, ds, d.
  split; [reflexivity|]. split; [reflexivity|]. split; [exact Hforward|].
  split; [exact Hin|].
  split; [apply Qgtb_true; exact Hthr|]. split; [reflexivity|].
  split; [apply box_valid_within; exact Hvalid | reflexivity].
Qed.

(** X5.  The padded crop of a box that lies in the image is the window
    of the image from 20 pixels before the box to 20 pixels after it,
    cut at the borders: it holds every row and column of the box, at
    most 20 more on each side, and never more than the image. *)
Theorem padded_crop_geometry (frame : Frame) (startX startY endX endY : Z) :
  box_within (Z.of_nat (rows frame)) (Z.of_nat (cols frame)) (startX, startY, endX, endY) ->
  Z.of_nat (rows (padded_crop frame (startX, startY, endX, endY)))
  = Z.min (Z.of_nat (rows frame)) (endY + 20) - Z.max 0 (startY - 20)
  /\ Z.of_nat (cols (padded_crop frame (startX, startY, endX, endY)))
     = Z.min (Z.of_nat (cols frame)) (endX + 20) - Z.max 0 (startX - 20)
  /\ endY - startY + 1 <= Z.of_nat (rows (padded_crop frame (startX, startY, endX, endY)))
     <= Z.min (Z.of_nat (rows frame)) (endY - startY + 40)
  /\ endX - startX + 1 <= Z.of_nat (cols (padded_crop frame (startX, startY, endX, endY)))
     <= Z.min (Z.of_nat (cols frame)) (endX - startX + 40)
  /\ (forall i j,
         px (padded_crop frame (startX, startY, endX, endY)) i j
         = px frame (Z.to_nat (Z.max 0 (startY - 20)) + i)%nat
                    (Z.to_nat (Z.max 0 (startX - 20)) + j)%nat).
Proof.
  unfold box_within, padded_crop, slice2, Py.slice_len, Py.slice_start, Py.slice_bound.
  cbn [rows cols px].
  intros (Hx0 & Hx1 & Hx2 & Hy0 & Hy1 & Hy2).
  repeat match goal with
         | |- context [?a <? ?b] => destruct (Z.ltb_spec a b)
         end; try lia.
  all: rewrite !Z2Nat.id by lia.
  all: repeat split; try lia.
  all: intros i j; f_equal; f_equal; lia.
Qed.

End FaceLocatorRuns.

Section PipelineRunsMore.
Variable py : Python.
Variable cv : OpenCV.
Variable nets : predictor.ModelBundle cv.

(** X6.  [predict_age_gender] returns [None] in three cases only: the
    age or the gender model is missing, the payload does not decode, or
    it decodes to an image without rows or columns.  In each of them no
    model has run: the state of the engine is the one before the
    call. *)
Theorem predict_age_gender_None (image_bytes : bytes) (w w' : World cv) :
  predictor.predict_age_gender py cv nets image_bytes w = (inr None, w') ->
  w' = after w [ev_predict_age_gender image_bytes]
  /\ (predictor.age_net nets = None
      \/ predictor.gender_net nets = None
      \/ imdecode cv image_bytes = inr None
      \/ exists frame,
          imdecode cv image_bytes = inr (Some frame)
          /\ (rows frame = 0%nat \/ cols frame = 0%nat)).
Proof.
  unfold predictor.predict_age_gender. unfold bind at 1, emit at 1.
  fold (after w [ev_predict_age_gender image_bytes]).
  set (w1 := after w [ev_predict_age_gender image_bytes]).
  destruct (predictor.age_net nets) as [an|];
    [|intros [= <-]; split; [reflexivity|left; reflexivity]].
  destruct (predictor.gender_net nets) as [gn|];
    [|intros [= <-]; split; [reflexivity|right; left; reflexivity]].
  unfold try_except, bind at 1, lift at 1.
  destruct (imdecode cv image_bytes) as [e|[frame|]].
  - destruct e; discriminate.
  - unfold shape2.
    destruct ((Z.of_nat (rows frame) =? 0) || (Z.of_nat (cols frame) =? 0)) eqn:Hdim.
    + intros [= <-]. split; [reflexivity|]. right. right. right.
      exists frame. split; [reflexivity|].
      apply orb_prop in Hdim. destruct Hdim as [H|H]; apply Z.eqb_eq in H; lia.
    + intros H. exfalso.
      match type of H with
      | match ?body ?w0 with _ => _ end = _ =>
          destruct (body w0) as [[e|v] w2] eqn:Hbody
      end.
      * destruct e; discriminate H.
      * injection H as -> _.
        unfold predictor._find_face, predictor.scores in Hbody. run_in Hbody.
  - intros [= <-]. split; [reflexivity|]. right. right. left. reflexivity.
Qed.

(** X7.  The run of [predict_age_gender] on an image with a face.  With
    the three models loaded, a payload that decodes to an image with
    rows and columns, and a box from the detector, the crop padded by 20
    pixels is turned into one tensor, the gender model and then the age
    model run on that same tensor, and the result holds the labels at
    the first maxima of the two score vectors. *)
Theorem predict_age_gender_success (image_bytes : bytes) (w : World cv)
    (fnet anet gnet : Net cv) (frame : Frame) (blob face_blob : Blob cv)
    (ds : list detection) (b : predictor.box) (s1 s2 s3 : EngineState cv)
    (gender_preds age_preds : list Q) (gi ai : nat) (gender age : pystr) :
  predictor.face_net nets = Some fnet ->
  predictor.age_net nets = Some anet ->
  predictor.gender_net nets = Some gnet ->
  imdecode cv image_bytes = inr (Some frame) ->
  rows frame <> 0%nat ->
  cols frame <> 0%nat ->
  blobFromImage cv frame 1%Q (300, 300) (inject_Z 104, inject_Z 177, inject_Z 123) false
  = inr blob ->
  forward_detections cv fnet blob (engine w) = (inr ds, s1) ->
  predictor.find_face_loop (Z.of_nat (rows frame)) (Z.of_nat (cols frame)) ds = Some b ->
  blobFromImage cv (padded_crop frame b) 1%Q (227, 227) predictor.MODEL_MEAN_VALUES false
  = inr face_blob ->
  forward_scores cv gnet face_blob s1 = (inr gender_preds, s2) ->
  argmax gender_preds = inr gi ->
  nth_error predictor.GENDER_LIST gi = Some gender ->
  forward_scores cv anet face_blob s2 = (inr age_preds, s3) ->
  argmax age_preds = inr ai ->
  nth_error predictor.AGE_BUCKETS ai = Some age ->
  predictor.predict_age_gender py cv nets image_bytes w
  = (inr (Some (<[ "age" := age ]> (<[ "gender" := gender ]> ∅))),
     Build_World cv s3 (trace w ++ [ev_predict_age_gender image_bytes])).
Proof.
  intros Hf Ha Hg Hdecode Hrows Hcols Hblob Hdet Hbox Hface Hgp Hgi Hgender Hap Hai Hage.
  unfold predictor.predict_age_gender. rewrite Ha, Hg.
  unfold bind at 1, emit at 1, try_except, bind at 1, lift at 1.
  rewrite Hdecode. unfold shape2.
  destruct (Z.eqb_spec (Z.of_nat (rows frame)) 0) as [H0|_]; [lia|].
  destruct (Z.eqb_spec (Z.of_nat (cols frame)) 0) as [H0|_]; [lia|].
  cbn [orb]. unfold bind at 1.
  rewrite (find_face_run cv nets frame
             (Build_World cv (engine w) (trace w ++ [ev_predict_age_gender image_bytes]))
             fnet blob ds s1 Hf Hblob Hdet), Hbox.
  pose proof (find_face_loop_within _ _ _ _ Hbox) as Hwithin.
  apply padded_crop_size in Hwithin.
  destruct b as [[[startX startY] endX] endY].
  unfold padded_crop in Hwithin, Hface.
  destruct (size _ =? 0) eqn:Hsz; [apply Z.eqb_eq in Hsz; lia|].
  unfold bind, lift, predictor.scores, engine_call, ret. cbn [engine trace].
  rewrite Hface. cbn beta iota. rewrite Hgp. cbn [engine trace].
  rewrite Hgi. cbn [rbind]. unfold Py.getitem. rewrite Hgender.
  cbn [engine trace]. rewrite Hap. cbn [engine trace].
  rewrite Hai. cbn [rbind]. rewrite Hage. reflexivity.
Qed.

(** X8.  When the scores of the gender model have no label (the vector
    is empty, or its first maximum lies beyond the two labels), the
    result is the error of the second handler with the text of the
    exception, a [ValueError] or an [IndexError], and the age model does
    not run. *)
Theorem predict_age_gender_no_label (image_bytes : bytes) (w : World cv)
    (fnet anet gnet : Net cv) (frame : Frame) (blob face_blob : Blob cv)
    (ds : list detection) (b : predictor.box) (s1 s2 : EngineState cv)
    (gender_preds : list Q) (e : exn) :
  predictor.face_net nets = Some fnet ->
  predictor.age_net nets = Some anet ->
  predictor.gender_net nets = Some gnet ->
  imdecode cv image_bytes = inr (Some frame) ->
  rows frame <> 0%nat ->
  cols frame <> 0%nat ->
  blobFromImage cv frame 1%Q (300, 300) (inject_Z 104, inject_Z 177, inject_Z 123) false
  = inr blob ->
  forward_detections cv fnet blob (engine w) = (inr ds, s1) ->
  predictor.find_face_loop (Z.of_nat (rows frame)) (Z.of_nat (cols frame)) ds = Some b ->
  blobFromImage cv (padded_crop frame b) 1%Q (227, 227) predictor.MODEL_MEAN_VALUES false
  = inr face_blob ->
  forward_scores cv gnet face_blob s1 = (inr gender_preds, s2) ->
  rbind (argmax gender_preds) (Py.getitem predictor.GENDER_LIST) = inl e ->
  (e = ValueError \/ e = IndexError)
  /\ predictor.predict_age_gender py cv nets image_bytes w
     = (inr (Some {[ "error" :=
                      lit "An unexpected server error occurred: " ++ exc_str py e ]}),
        Build_World cv s2 (trace w ++ [ev_predict_age_gender image_bytes])).
Proof.
  intros Hf Ha Hg Hdecode Hrows Hcols Hblob Hdet Hbox Hface Hgp Hlabel.
  assert (He : e = ValueError \/ e = IndexError).
  { unfold rbind, argmax, Py.getitem in Hlabel.
    destruct gender_preds; [injection Hlabel as <-; left; reflexivity|].
    destruct (nth_error _ _); [discriminate|].
    injection Hlabel as <-. right. reflexivity. }
  split; [exact He|].
  unfold predictor.predict_age_gender. rewrite Ha, Hg.
  unfold bind at 1, emit at 1, try_except, bind at 1, lift at 1.
  rewrite Hdecode. unfold shape2.
  destruct (Z.eqb_spec (Z.of_nat (rows frame)) 0) as [H0|_]; [lia|].
  destruct (Z.eqb_spec (Z.of_nat (cols frame)) 0) as [H0|_]; [lia|].
  cbn [orb]. unfold bind at 1.
  rewrite (find_face_run cv nets frame
             (Build_World cv (engine w) (trace w ++ [ev_predict_age_gender image_bytes]))
             fnet blob ds s1 Hf Hblob Hdet), Hbox.
  pose proof (find_face_loop_within _ _ _ _ Hbox) as Hwithin.
  apply padded_crop_size in Hwithin.
  destruct b as [[[startX startY] endX] endY].
  unfold padded_crop in Hwithin, Hface.
  destruct (size _ =? 0) eqn:Hsz; [apply Z.eqb_eq in Hsz; lia|].
  unfold bind, lift, predictor.scores, engine_call, ret. cbn [engine trace].
  rewrite Hface. cbn beta iota. rewrite Hgp. cbn [engine trace].
  rewrite Hlabel.
  destruct He as [-> | ->]; reflexivity.
Qed.

End PipelineRunsMore.

(* ================================================================== *)
(** * More on the two frontends *)
(* ================================================================== *)

Section FrontendHelpers.
Variable py : Python.
Variable cv : OpenCV.
Variable nets : predictor.ModelBundle cv.

(** Two runs from the same state of the engine differ in the trace
    only. *)
Lemma trace_linear_from {A} (m : M cv A) (w : World cv) :
  trace_linear m ->
  m w = (fst (m (Build_World cv (engine w) [])),
         Build_World cv (engine (snd (m (Build_World cv (engine w) []))))
           (trace w ++ new_events m w)).
Proof.
  intros Hm. rewrite (Hm w) at 1. unfold new_events, run_fresh.
  destruct (m (Build_World cv (engine w) [])) as [r w']. reflexivity.
Qed.

Lemma quiet_ret {A} (a : A) : quiet (ret (cv := cv) a).
Proof. intros w. reflexivity. Qed.

Lemma quiet_raise {A} (e : exn) : quiet (raise (cv := cv) (A := A) e).
Proof. intros w. reflexivity. Qed.

Lemma quiet_lift {A} (r : result A) : quiet (lift (cv := cv) r).
Proof. intros w. reflexivity. Qed.

Lemma quiet_engine_call {A} (op : EngineState cv -> result A * EngineState cv) :
  quiet (engine_call op).
Proof. intros w. unfold engine_call. destruct (op (engine w)). reflexivity. Qed.

Lemma quiet_bind {A B} (m : M cv A) (k : A -> M cv B) :
  quiet m -> (forall a, quiet (k a)) -> quiet (bind m k).
Proof.
  intros Hm Hk w. unfold bind. specialize (Hm w).
  destruct (m w) as [[e|a] w1]; [exact Hm|].
  rewrite (Hk a w1). exact Hm.
Qed.

Lemma quiet_try_except {A} (body : M cv A) (handler : exn -> M cv A) :
  quiet body -> (forall e, quiet (handler e)) -> quiet (try_except body handler).
Proof.
  intros Hm Hk w. unfold try_except. specialize (Hm w).
  destruct (body w) as [[e|a] w1]; [|exact Hm].
  rewrite (Hk e w1). exact Hm.
Qed.

Lemma new_events_eq {A} (m : M cv A) (w : World cv) :
  new_events m w = trace (snd (m (Build_World cv (engine w) []))).
Proof.
  unfold new_events, run_fresh.
  destruct (m (Build_World cv (engine w) [])). reflexivity.
Qed.

(** The pipeline adds its entry to the trace and nothing else. *)
Lemma predict_age_gender_trace (image_bytes : bytes) (w : World cv) :
  trace (snd (predictor.predict_age_gender py cv nets image_bytes w))
  = trace w ++ [ev_predict_age_gender image_bytes].
Proof.
  unfold predictor.predict_age_gender. unfold bind at 1, emit at 1.
  match goal with
  | |- trace (snd (?rest ?w1)) = _ => assert (Hquiet : quiet rest)
  end.
  { unfold predictor._find_face, predictor.scores, shape2.
    repeat first
      [ apply quiet_ret | apply quiet_raise | apply quiet_lift
      | apply quiet_engine_call
      | apply quiet_bind; [|intros ?]
      | apply quiet_try_except; [|intros ?]
      | match goal with
        | |- quiet (match ?x with _ => _ end) => destruct x
        end ]. }
  rewrite Hquiet. reflexivity.
Qed.

Lemma predict_age_gender_events (image_bytes : bytes) (w : World cv) :
  new_events (predictor.predict_age_gender py cv nets image_bytes) w
  = [ev_predict_age_gender image_bytes].
Proof.
  unfold new_events, run_fresh.
  pose proof (predict_age_gender_trace image_bytes (Build_World cv (engine w) [])) as H.
  destruct (predictor.predict_age_gender py cv nets image_bytes _) as [r w'].
  exact H.
Qed.

(** A run of the pipeline from any trace, from its run from the empty
    trace. *)
Lemma predict_age_gender_from (image_bytes : bytes) (w : World cv) :
  predictor.predict_age_gender py cv nets image_bytes w
  = (fst (predictor.predict_age_gender py cv nets image_bytes
            (Build_World cv (engine w) [])),
     Build_World cv
       (engine (snd (predictor.predict_age_gender py cv nets image_bytes
                       (Build_World cv (engine w) []))))
       (trace w ++ [ev_predict_age_gender image_bytes])).
Proof.
  rewrite (trace_linear_from _ w (predict_age_gender_trace_linear py cv nets image_bytes)) at 1.
  rewrite predict_age_gender_events. reflexivity.
Qed.

Lemma Predict_on_value (request : grpc_server.PredictRequest) (w w' : World cv)
    (v : option dict) :
  grpc_server.image_data request <> [] ->
  predictor.predict_age_gender py cv nets (grpc_server.image_data request) w
  = (inr v, w') ->
  grpc_server.Predict py cv nets request w
  = (inr (fst (rpc_translate py v)), after w' (snd (rpc_translate py v))).
Proof.
  intros Hne Hrun. unfold grpc_server.Predict.
  destruct (grpc_server.image_data request) as [|b rest]; [congruence|].
  unfold try_except, bind at 1. rewrite Hrun.
  unfold rpc_translate, after.
  destruct v as [d|].
  2:{ unfold bind, emit, ret. cbn [engine trace fst snd].
      rewrite <- app_assoc. reflexivity. }
  destruct (d !! "error") as [err|].
  { unfold bind, emit, ret.
    destruct (Py.contains _ err); cbn [engine trace fst snd];
      rewrite <- app_assoc; reflexivity. }
  unfold grpc_server.dict_getitem, bind at 1, lift at 1.
  destruct (d !! "age") as [age|].
  2:{ unfold bind, emit, ret. cbn [engine trace fst snd].
      rewrite <- app_assoc. reflexivity. }
  unfold bind at 1, lift at 1. rewrite map_age_to_group_eq.
  unfold bind at 1, lift at 1.
  destruct (d !! "gender") as [gender|].
  - unfold ret. cbn [fst snd]. rewrite app_nil_r. destruct w'. reflexivity.
  - unfold bind, emit, ret. cbn [engine trace fst snd].
    rewrite <- app_assoc. reflexivity.
Qed.

Lemma contains_app_r (sub pre s : pystr) :
  Py.contains sub s = true -> Py.contains sub (pre ++ s) = true.
Proof.
  intros H. induction pre as [|c pre IH]; [exact H|].
  cbn [app Py.contains]. rewrite IH. apply orb_true_r.
Qed.

Lemma rpc_status_after_call (image_bytes : bytes) (evs : list event) :
  grpc_server.rpc_status (ev_predict_age_gender image_bytes :: evs)
  = grpc_server.rpc_status evs.
Proof. reflexivity. Qed.

(** The status of POST /predict when the models are loaded. *)
Lemma predict_loaded_status (file : main.UploadFile) (w : World cv) :
  main.models_loaded cv nets = true ->
  In (main.http_status (fst (main.predict py cv nets file w))) [200; 400; 500].
Proof.
  intros Hloaded.
  destruct (main.read file) as [e|[|b contents]] eqn:Hread.
  - unfold main.predict. rewrite Hloaded. cbn [negb].
    unfold bind at 1, try_finally, try_except, bind at 1, lift. rewrite Hread.
    simpl; tauto.
  - unfold main.predict. rewrite Hloaded. cbn [negb].
    unfold bind at 1, try_finally, try_except, bind at 1, lift. rewrite Hread.
    simpl; tauto.
  - destruct (predict_age_gender_returns py cv nets (b :: contents)
                (after w [ev_file_close])) as (v & w1 & Hv & Hvalue).
    rewrite (predict_on_contents py cv nets file w w1 b contents v Hloaded Hread Hv).
    apply http_translate_status. exact Hvalue.
Qed.

End FrontendHelpers.

Section FrontendsMore.
Variable py : Python.
Variable cv : OpenCV.
Variable nets : predictor.ModelBundle cv.

(** X9.  GET /health answers 200 with [{"status": "OK"}] when the three
    models are loaded and 503 with an error body when one is missing; it
    changes nothing, and it answers 503 exactly when POST /predict
    does. *)
Theorem health_check_reflects_readiness (file : main.UploadFile) (w : World cv) :
  main.health_check cv nets w
  = (inr (if main.models_loaded cv nets
          then {| main.status_code := 200;
                  main.content := {[ "status" := lit "OK" ]} |}
          else {| main.status_code := 503;
                  main.content := <[ "status" := lit "error" ]>
                                    (<[ "detail" := lit "Models not loaded" ]> ∅) |}),
     w)
  /\ (main.http_status (fst (main.health_check cv nets w)) = 503
      <-> main.http_status (fst (main.predict py cv nets file w)) = 503).
Proof.
  unfold main.health_check.
  destruct (main.models_loaded cv nets) eqn:Hloaded; cbn [negb].
  - split; [reflexivity|].
    pose proof (predict_loaded_status py cv nets file w Hloaded) as Hin.
    unfold ret. cbn [fst main.http_status main.status_code].
    split; [discriminate|].
    intros H. rewrite H in Hin. simpl in Hin.
    destruct Hin as [H0|[H0|[H0|[]]]]; discriminate H0.
  - split; [reflexivity|].
    unfold main.predict. rewrite Hloaded. split; reflexivity.
Qed.

(** X10.  [Predict] never raises and always returns a response.  The
    status it leaves is [OK], [INVALID_ARGUMENT], [FAILED_PRECONDITION]
    or [INTERNAL]; it is [INVALID_ARGUMENT] exactly for the empty
    payload; with a status other than [OK] the response is the empty
    message, and with [OK] it holds one of the five age groups, [male]
    or [female], and the confidence 0.95. *)
Theorem Predict_outcome (request : grpc_server.PredictRequest) (w : World cv) :
  exists response w',
    grpc_server.Predict py cv nets request w = (inr response, w')
    /\ trace w' = trace w ++ new_events (grpc_server.Predict py cv nets request) w
    /\ In (grpc_server.rpc_status (new_events (grpc_server.Predict py cv nets request) w))
          [OK; INVALID_ARGUMENT; FAILED_PRECONDITION; INTERNAL]
    /\ (grpc_server.rpc_status (new_events (grpc_server.Predict py cv nets request) w)
        = INVALID_ARGUMENT <-> grpc_server.image_data request = [])
    /\ (grpc_server.rpc_status (new_events (grpc_server.Predict py cv nets request) w)
        <> OK -> response = grpc_server.PredictResponse_default)
    /\ (grpc_server.rpc_status (new_events (grpc_server.Predict py cv nets request) w)
        = OK ->
        In (grpc_server.age_group response) AGE_GROUPS
        /\ In (grpc_server.gender response) [lit "male"; lit "female"]
        /\ grpc_server.confidence response = 95 # 100).
Proof.
  rewrite (trace_linear_from cv _ w (Predict_trace_linear py cv nets request)).
  rewrite !new_events_eq.
  set (w0 := Build_World cv (engine w) []).
  assert (Hfresh : exists response w1,
             grpc_server.Predict py cv nets request w0 = (inr response, w1)
             /\ In (grpc_server.rpc_status (trace w1))
                   [OK; INVALID_ARGUMENT; FAILED_PRECONDITION; INTERNAL]
             /\ (grpc_server.rpc_status (trace w1) = INVALID_ARGUMENT
                 <-> grpc_server.image_data request = [])
             /\ (grpc_server.rpc_status (trace w1) <> OK ->
                 response = grpc_server.PredictResponse_default)
             /\ (grpc_server.rpc_status (trace w1) = OK ->
                 In (grpc_server.age_group response) AGE_GROUPS
                 /\ In (grpc_server.gender response) [lit "male"; lit "female"]
                 /\ grpc_server.confidence response = 95 # 100)).
  { destruct (grpc_server.image_data request) as [|b rest] eqn:Hdata.
    { unfold grpc_server.Predict. rewrite Hdata.
      unfold bind, emit, ret. eexists _, _. split; [reflexivity|].
      cbn. repeat split; try tauto; try discriminate. }
    destruct (predict_age_gender_returns py cv nets (b :: rest) w0)
      as (v & w1 & Hrun & Hvalue).
    pose proof (predict_age_gender_trace py cv nets (b :: rest) w0) as Htrace.
    rewrite Hrun in Htrace. cbn [snd trace w0 app] in Htrace.
    rewrite <- Hdata in Hrun.
    rewrite (Predict_on_value py cv nets request w0 w1 v) by congruence.
    eexists _, _. split; [reflexivity|].
    cbn [after trace]. rewrite Htrace. cbn [app].
    rewrite rpc_status_after_call.
    unfold rpc_translate.
    destruct Hvalue as [ | |e|e|age gender Ha Hg].
    - cbn. repeat split; try tauto; try discriminate.
    - rewrite lookup_singleton_eq.
      destruct (Py.contains _ _); cbn; repeat split; try tauto; try discriminate.
    - rewrite lookup_singleton_eq.
      destruct (Py.contains _ _); cbn; repeat split; try tauto; try discriminate.
    - rewrite lookup_singleton_eq.
      destruct (Py.contains _ _); cbn; repeat split; try tauto; try discriminate.
    - rewrite success_lookup_error, success_lookup_age, success_lookup_gender.
      destruct (map_age_to_group_returns py age) as (group & Hgroup & Hin).
      rewrite Hgroup.
      cbn [fst snd grpc_server.rpc_status grpc_server.status_code_from].
      split; [left; reflexivity|]. split; [split; discriminate|].
      split; [intros H; congruence|]. intros _.
      cbn [grpc_server.age_group grpc_server.gender grpc_server.confidence].
      split; [exact Hin|]. split; [apply lower_gender; exact Hg | reflexivity]. }
  destruct Hfresh as (response & w1 & Hrun & Hprops).
  rewrite Hrun. cbn [fst snd]. eexists _, _. split; [reflexivity|].
  split; [reflexivity|]. exact Hprops.
Qed.

(** X11.  On the same payload and from the same state of the engine the
    two frontends classify the outcome alike: HTTP 200 goes with [OK],
    400 with [FAILED_PRECONDITION] and 500 with [INTERNAL]. *)
Theorem frontends_agree (file : main.UploadFile) (request : grpc_server.PredictRequest)
    (w : World cv) :
  main.models_loaded cv nets = true ->
  main.read file = inr (grpc_server.image_data request) ->
  grpc_server.image_data request <> [] ->
  grpc_server.rpc_status (new_events (grpc_server.Predict py cv nets request) w)
  = rpc_code_of_http (main.http_status (fst (main.predict py cv nets file w))).
Proof.
  intros Hloaded Hread Hne.
  destruct (grpc_server.image_data request) as [|b rest] eqn:Hdata; [congruence|].
  set (w0 := Build_World cv (engine w) []).
  destruct (predict_age_gender_returns py cv nets (b :: rest) w0)
    as (v & w1 & Hrun & Hvalue).
  pose proof (predict_age_gender_trace py cv nets (b :: rest) w0) as Htrace.
  rewrite Hrun in Htrace. cbn [snd trace w0 app] in Htrace.
  assert (Hhttp : fst (main.predict py cv nets file w) = http_translate py v).
  { pose proof (predict_age_gender_from py cv nets (b :: rest) (after w [ev_file_close]))
      as Hfrom.
    cbn [after engine] in Hfrom. fold w0 in Hfrom. rewrite Hrun in Hfrom.
    cbn [fst snd] in Hfrom.
    rewrite (predict_on_contents py cv nets file w _ b rest v Hloaded Hread Hfrom).
    reflexivity. }
  rewrite Hhttp.
  rewrite new_events_eq. fold w0.
  rewrite <- Hdata in Hrun.
  rewrite (Predict_on_value py cv nets request w0 w1 v) by congruence.
  cbn [fst snd after trace]. rewrite Htrace. cbn [app].
  rewrite rpc_status_after_call.
  unfold rpc_translate, http_translate.
  destruct Hvalue as [ | |e|e|age gender Ha Hg].
  - reflexivity.
  - rewrite lookup_singleton_eq. destruct (Py.contains _ _); reflexivity.
  - rewrite lookup_singleton_eq. destruct (Py.contains _ _); reflexivity.
  - rewrite lookup_singleton_eq. destruct (Py.contains _ _); reflexivity.
  - rewrite success_lookup_error, success_lookup_age, success_lookup_gender.
    rewrite map_age_to_group_eq. reflexivity.
Qed.

(** X12.  POST /predict leaves the handler in two ways only: a response
    of status 200 whose body has exactly the keys [age], [gender] and
    [age_group], or an [HTTPException] of status 400, 500 or 503; no
    other exception escapes to the framework. *)
Theorem predict_outcome (file : main.UploadFile) (w : World cv) :
  match fst (main.predict py cv nets file w) with
  | inr response =>
      main.status_code response = 200
      /\ exists age gender group,
          main.content response
          = <[ "age_group" := group ]> (<[ "age" := age ]> (<[ "gender" := gender ]> ∅))
          /\ In age predictor.AGE_BUCKETS
          /\ In gender predictor.GENDER_LIST
          /\ In group AGE_GROUPS
  | inl (HTTPException code _) => In code [400; 500; 503]
  | inl _ => False
  end.
Proof.
  destruct (main.models_loaded cv nets) eqn:Hloaded.
  2:{ unfold main.predict. rewrite Hloaded. simpl. tauto. }
  destruct (main.read file) as [e|[|b contents]] eqn:Hread.
  - unfold main.predict. rewrite Hloaded. cbn [negb].
    unfold bind at 1, try_finally, try_except, bind at 1, lift. rewrite Hread.
    simpl; tauto.
  - unfold main.predict. rewrite Hloaded. cbn [negb].
    unfold bind at 1, try_finally, try_except, bind at 1, lift. rewrite Hread.
    simpl; tauto.
  - destruct (predict_age_gender_returns py cv nets (b :: contents)
                (after w [ev_file_close])) as (v & w1 & Hv & Hvalue).
    rewrite (predict_on_contents py cv nets file w w1 b contents v Hloaded Hread Hv).
    cbn [fst]. unfold http_translate.
    destruct Hvalue as [ | |e|e|age gender Ha Hg].
    + simpl; tauto.
    + rewrite lookup_singleton_eq. destruct (Py.contains _ _); simpl; tauto.
    + rewrite lookup_singleton_eq. destruct (Py.contains _ _); simpl; tauto.
    + rewrite lookup_singleton_eq. destruct (Py.contains _ _); simpl; tauto.
    + rewrite success_lookup_error, success_lookup_age.
      destruct (map_age_to_group_returns py age) as (group & Hgroup & Hin).
      rewrite Hgroup. split; [reflexivity|].
      exists age, gender, group. auto.
Qed.

(** X13.  What the frontends do around the pipeline.  POST /predict adds
    nothing to the trace when a model is missing; otherwise it closes
    the upload exactly once, whatever the read gave, and enters the
    pipeline once, with the bytes it read, exactly when the read gave
    bytes and not the empty string.  [Predict] enters the pipeline once,
    with the payload of the request, exactly when the payload is not
    empty. *)
Theorem frontends_footprint (file : main.UploadFile)
    (request : grpc_server.PredictRequest) (w : World cv) :
  trace (snd (main.predict py cv nets file w))
  = trace w ++ new_events (main.predict py cv nets file) w
  /\ new_events (main.predict py cv nets file) w
     = (if main.models_loaded cv nets
        then ev_file_close ::
             match main.read file with
             | inr (b :: contents) => [ev_predict_age_gender (b :: contents)]
             | _ => []
             end
        else [])
  /\ trace (snd (grpc_server.Predict py cv nets request w))
     = trace w ++ new_events (grpc_server.Predict py cv nets request) w
  /\ pipeline_calls (new_events (grpc_server.Predict py cv nets request) w)
     = match grpc_server.image_data request with
       | [] => []
       | b :: payload => [b :: payload]
       end
  /\ close_count (new_events (grpc_server.Predict py cv nets request) w) = 0%nat.
Proof.
  split; [rewrite (trace_linear_from cv _ w (predict_trace_linear py cv nets file));
          reflexivity|].
  split.
  { rewrite new_events_eq.
    set (w0 := Build_World cv (engine w) []).
    destruct (main.models_loaded cv nets) eqn:Hloaded.
    2:{ unfold main.predict. rewrite Hloaded. reflexivity. }
    destruct (main.read file) as [e|[|b contents]] eqn:Hread.
    - unfold main.predict. rewrite Hloaded. cbn [negb].
      unfold bind at 1, try_finally, try_except, bind at 1, lift. rewrite Hread.
      reflexivity.
    - unfold main.predict. rewrite Hloaded. cbn [negb].
      unfold bind at 1, try_finally, try_except, bind at 1, lift. rewrite Hread.
      reflexivity.
    - destruct (predict_age_gender_returns py cv nets (b :: contents)
                  (after w0 [ev_file_close])) as (v & w1 & Hv & _).
      pose proof (predict_age_gender_trace py cv nets (b :: contents)
                    (after w0 [ev_file_close])) as Htrace.
      rewrite Hv in Htrace. cbn [snd] in Htrace.
      rewrite (predict_on_contents py cv nets file w0 w1 b contents v Hloaded Hread Hv).
      cbn [snd]. rewrite Htrace. reflexivity. }
  split; [rewrite (trace_linear_from cv _ w (Predict_trace_linear py cv nets request));
          reflexivity|].
  rewrite new_events_eq.
  set (w0 := Build_World cv (engine w) []).
  destruct (grpc_server.image_data request) as [|b rest] eqn:Hdata.
  { unfold grpc_server.Predict. rewrite Hdata. split; reflexivity. }
  destruct (predict_age_gender_returns py cv nets (b :: rest) w0)
    as (v & w1 & Hrun & _).
  pose proof (predict_age_gender_trace py cv nets (b :: rest) w0) as Htrace.
  rewrite Hrun in Htrace. cbn [snd trace w0 app] in Htrace.
  rewrite <- Hdata in Hrun.
  rewrite (Predict_on_value py cv nets request w0 w1 v) by congruence.
  cbn [fst snd after trace]. rewrite Htrace. cbn [app pipeline_calls close_count].
  unfold rpc_translate.
  destruct v as [d|]; [|split; reflexivity].
  destruct (d !! "error"); [split; reflexivity|].
  destruct (d !! "age") as [age|], (d !! "gender") as [gender|];
    try (split; reflexivity).
  destruct (grpc_server.map_age_to_group py age); split; reflexivity.
Qed.

End FrontendsMore.

Section ErrorPaths.
Variable py : Python.
Variable cv : OpenCV.
Variable nets : predictor.ModelBundle cv.

Lemma models_loaded_Some :
  main.models_loaded cv nets = true ->
  exists fnet anet gnet,
    predictor.face_net nets = Some fnet
    /\ predictor.age_net nets = Some anet
    /\ predictor.gender_net nets = Some gnet.
Proof.
  unfold main.models_loaded.
  destruct (predictor.face_net nets), (predictor.age_net nets),
    (predictor.gender_net nets); try discriminate.
  intros _. eexists _, _, _. repeat split.
Qed.

(** The pipeline when the decoder raises. *)
Lemma predict_age_gender_decode_error (image_bytes : bytes) (w : World cv) (e : exn)
    (anet gnet : Net cv) :
  predictor.age_net nets = Some anet ->
  predictor.gender_net nets = Some gnet ->
  imdecode cv image_bytes = inl e ->
  predictor.predict_age_gender py cv nets image_bytes w
  = (inr (Some {[ "error" :=
                   (if is_cv2_error e
                    then lit "OpenCV processing error: "
                    else lit "An unexpected server error occurred: ")
                   ++ exc_str py e ]}),
     after w [ev_predict_age_gender image_bytes]).
Proof.
  intros Ha Hg Hdecode. unfold predictor.predict_age_gender. rewrite Ha, Hg.
  unfold bind at 1, emit at 1, try_except, bind at 1, lift at 1. rewrite Hdecode.
  destruct e; reflexivity.
Qed.

(** X14.  The frontends tell a client error from a server error by the
    text of the pipeline's error, and the pipeline puts the text of an
    exception of the engine into its error.  So when the decoder raises
    an exception whose text contains [No face detected], POST /predict
    answers 400 and [Predict] sets [FAILED_PRECONDITION], as for an
    image without a face. *)
Theorem engine_text_decides_status (file : main.UploadFile)
    (request : grpc_server.PredictRequest) (w : World cv) (e : exn) :
  main.models_loaded cv nets = true ->
  main.read file = inr (grpc_server.image_data request) ->
  grpc_server.image_data request <> [] ->
  imdecode cv (grpc_server.image_data request) = inl e ->
  Py.contains (lit "No face detected") (exc_str py e) = true ->
  main.http_status (fst (main.predict py cv nets file w)) = 400
  /\ grpc_server.rpc_status (new_events (grpc_server.Predict py cv nets request) w)
     = FAILED_PRECONDITION.
Proof.
  intros Hloaded Hread Hne Hdecode Htext.
  destruct (models_loaded_Some Hloaded) as (fnet & anet & gnet & _ & Ha & Hg).
  assert (Herr : forall pre, Py.contains (lit "No face detected") (pre ++ exc_str py e) = true).
  { intros pre. apply contains_app_r. exact Htext. }
  split.
  - destruct (grpc_server.image_data request) as [|b rest] eqn:Hdata; [congruence|].
    rewrite (predict_on_contents py cv nets file w _ b rest _ Hloaded Hread
               (predict_age_gender_decode_error (b :: rest) _ e anet gnet Ha Hg Hdecode)).
    cbn [fst]. unfold http_translate. rewrite lookup_singleton_eq, Herr. reflexivity.
  - rewrite new_events_eq.
    rewrite (Predict_on_value py cv nets request _ _ _ Hne
               (predict_age_gender_decode_error _ _ e anet gnet Ha Hg Hdecode)).
    cbn [snd after trace engine app]. rewrite rpc_status_after_call.
    unfold rpc_translate. rewrite lookup_singleton_eq, Herr. reflexivity.
Qed.

(** X15.  An image on which no detection is above the threshold.  With
    the models loaded and a payload that decodes to an image with rows
    and columns, when every detection has a confidence of at most 0.5
    (or there is none), the pipeline returns the error
    [No face detected] after the one forward pass of the detector,
    POST /predict answers 400 and [Predict] sets
    [FAILED_PRECONDITION]. *)
Theorem no_face_end_to_end (file : main.UploadFile)
    (request : grpc_server.PredictRequest) (w : World cv)
    (fnet : Net cv) (frame : Frame) (blob : Blob cv)
    (ds : list detection) (s1 : EngineState cv) :
  main.models_loaded cv nets = true ->
  predictor.face_net nets = Some fnet ->
  main.read file = inr (grpc_server.image_data request) ->
  grpc_server.image_data request <> [] ->
  imdecode cv (grpc_server.image_data request) = inr (Some frame) ->
  rows frame <> 0%nat ->
  cols frame <> 0%nat ->
  blobFromImage cv frame 1%Q (300, 300) (inject_Z 104, inject_Z 177, inject_Z 123) false
  = inr blob ->
  forward_detections cv fnet blob (engine w) = (inr ds, s1) ->
  (forall d, In d ds -> (confidence d <= predictor.FACE_CONFIDENCE_THRESHOLD)%Q) ->
  predictor.predict_age_gender py cv nets (grpc_server.image_data request) w
  = (inr (Some {[ "error" := lit "No face detected" ]}),
     Build_World cv s1 (trace w ++ [ev_predict_age_gender (grpc_server.image_data request)]))
  /\ main.http_status (fst (main.predict py cv nets file w)) = 400
  /\ grpc_server.rpc_status (new_events (grpc_server.Predict py cv nets request) w)
     = FAILED_PRECONDITION.
Proof.
  intros Hloaded Hf Hread Hne Hdecode Hrows Hcols Hblob Hdet Hbelow.
  destruct (models_loaded_Some Hloaded) as (fnet' & anet & gnet & _ & Ha & Hg).
  assert (Hloop : predictor.find_face_loop (Z.of_nat (rows frame))
                    (Z.of_nat (cols frame)) ds = None).
  { apply find_face_loop_below_threshold. intros d Hd.
    apply Qgtb_false. apply Hbelow. exact Hd. }
  assert (Hrun : forall t,
             predictor.predict_age_gender py cv nets (grpc_server.image_data request)
               (Build_World cv (engine w) t)
             = (inr (Some {[ "error" := lit "No face detected" ]}),
                Build_World cv s1
                  (t ++ [ev_predict_age_gender (grpc_server.image_data request)]))).
  { intros t. unfold predictor.predict_age_gender. rewrite Ha, Hg.
    unfold bind at 1, emit at 1, try_except, bind at 1, lift at 1.
    rewrite Hdecode. unfold shape2.
    destruct (Z.eqb_spec (Z.of_nat (rows frame)) 0) as [H0|_]; [lia|].
    destruct (Z.eqb_spec (Z.of_nat (cols frame)) 0) as [H0|_]; [lia|].
    cbn [orb]. unfold bind at 1. cbn [engine trace].
    rewrite (find_face_run cv nets frame
               (Build_World cv (engine w)
                  (t ++ [ev_predict_age_gender (grpc_server.image_data request)]))
               fnet blob ds s1 Hf Hblob Hdet), Hloop.
    reflexivity. }
  split; [|split].
  - destruct w as [s t]. apply Hrun.
  - destruct (grpc_server.image_data request) as [|b rest] eqn:Hdata; [congruence|].
    rewrite (predict_on_contents py cv nets file w _ b rest _ Hloaded Hread
               (Hrun (trace w ++ [ev_file_close]))).
    reflexivity.
  - rewrite new_events_eq.
    rewrite (Predict_on_value py cv nets request _ _ _ Hne (Hrun [])).
    reflexivity.
Qed.

(** X16.  The port of the RPC server that [main] logs is the port
    [serve] binds, for every value of [GRPC_PORT] in the environment,
    and it is 50052 when the variable is not set (8000 for the HTTP
    port); a value that is not an integer makes both raise
    [ValueError]. *)
Theorem grpc_port_agrees (environ : dict) :
  main.GRPC_PORT py environ = grpc_server.serve_port py environ
  /\ (environ !! "GRPC_PORT" = None -> grpc_server.serve_port py environ = inr 50052)
  /\ (environ !! "PORT" = None -> main.PORT py environ = inr 8000)
  /\ (forall e, grpc_server.serve_port py environ = inl e -> e = ValueError)
  /\ (forall e, main.PORT py environ = inl e -> e = ValueError).
Proof.
  unfold main.GRPC_PORT, main.PORT, grpc_server.serve_port.
  split; [destruct (environ !! "GRPC_PORT"); reflexivity|].
  split; [intros ->; reflexivity|].
  split; [intros ->; reflexivity|].
  split.
  - intros e. apply int_raises_ValueError.
  - intros e. destruct (environ !! "PORT"); [apply int_raises_ValueError|discriminate].
Qed.

End ErrorPaths.

(* ================================================================== *)
(** * More on [map_age_to_group] *)
(* ================================================================== *)

Section AgeGroupMapperMore.
Variable py : Python.

Lemma lstrip_app_stop (chars u v : pystr) (c : N) :
  Py.mem c chars = false ->
  Py.lstrip chars (u ++ c :: v) = Py.lstrip chars u ++ c :: v.
Proof.
  intros Hc. induction u as [|a u IH]; cbn [app Py.lstrip].
  - rewrite Hc. reflexivity.
  - destruct (Py.mem a chars); [exact IH | reflexivity].
Qed.

Lemma rstrip_app_stop (chars u v : pystr) (c : N) :
  Py.mem c chars = false ->
  Py.rstrip chars (u ++ c :: v) = u ++ c :: Py.rstrip chars v.
Proof.
  intros Hc. unfold Py.rstrip.
  rewrite rev_app_distr. cbn [rev]. rewrite <- app_assoc. cbn [app].
  rewrite (lstrip_app_stop chars (rev v) (rev u) c Hc).
  rewrite rev_app_distr. cbn [rev]. rewrite rev_involutive, <- app_assoc.
  reflexivity.
Qed.

Lemma lstrip_In (chars s : pystr) (c : N) :
  In c (Py.lstrip chars s) -> In c s.
Proof.
  induction s as [|a s IH]; cbn [Py.lstrip]; [tauto|].
  destruct (Py.mem a chars); [right; auto | tauto].
Qed.

Lemma split_hd (sep : N) (x y : pystr) :
  (forall c, In c x -> c <> sep) ->
  hd [] (Py.split sep (x ++ sep :: y)) = x.
Proof.
  induction x as [|a x IH]; intros Hx; cbn [app Py.split].
  - rewrite N.eqb_refl. reflexivity.
  - destruct (N.eqb_spec a sep) as [->|_].
    + exfalso. apply (Hx sep); [left; reflexivity | reflexivity].
    + specialize (IH (fun c Hc => Hx c (or_intror Hc))).
      destruct (Py.split sep (x ++ sep :: y)) as [|p ps] eqn:Hsp; cbn [hd] in *.
      * exfalso. exact (split_nonempty _ _ Hsp).
      * congruence.
Qed.

Lemma strip_peel (chars s : pystr) (c : N) :
  Py.mem c chars = true ->
  Py.rstrip chars (Py.lstrip chars (s ++ [c])) = Py.rstrip chars (Py.lstrip chars s).
Proof.
  intros Hc. induction s as [|a s IH]; cbn [app Py.lstrip].
  - rewrite Hc. reflexivity.
  - destruct (Py.mem a chars); [exact IH|].
    unfold Py.rstrip. change (a :: s ++ [c]) with ((a :: s) ++ [c]).
    rewrite rev_app_distr. cbn [rev app Py.lstrip]. rewrite Hc. reflexivity.
Qed.

(** X17.  [map_age_to_group] reads the text before the first hyphen and
    nothing else: when the text before a hyphen holds no hyphen, what
    follows that hyphen does not change the result; and a parenthesis
    put before and after a string does not change the result either. *)
Theorem map_age_to_group_reads_first_bound (low rest rest' s : pystr) :
  (forall c, In c low -> c <> 45%N) ->
  grpc_server.map_age_to_group py (low ++ 45%N :: rest)
  = grpc_server.map_age_to_group py (low ++ 45%N :: rest')
  /\ grpc_server.map_age_to_group py (40%N :: s ++ [41%N])
     = grpc_server.map_age_to_group py s.
Proof.
  intros Hlow. split.
  - rewrite !map_age_to_group_eq. unfold first_bound, Py.strip.
    assert (Hhd : forall r,
               hd [] (Py.split 45
                        (Py.rstrip (lit "()") (Py.lstrip (lit "()") (low ++ 45%N :: r))))
               = Py.lstrip (lit "()") low).
    { intros r.
      rewrite lstrip_app_stop by reflexivity.
      rewrite rstrip_app_stop by reflexivity.
      apply split_hd. intros c Hc. apply Hlow. eapply lstrip_In. exact Hc. }
    rewrite !Hhd. reflexivity.
  - rewrite !map_age_to_group_eq. unfold first_bound, Py.strip.
    change (40%N :: s ++ [41%N]) with ((40%N :: s) ++ [41%N]).
    rewrite strip_peel by reflexivity. reflexivity.
Qed.

Lemma skip_space_In (s : pystr) (c : N) :
  In c (Py.skip_space s) -> In c s.
Proof.
  induction s as [|a s IH]; cbn [Py.skip_space]; [tauto|].
  destruct (Py.is_space a); [right; auto | tauto].
Qed.

Lemma to_ascii_hyphen (c : N) : Py.to_ascii py c = 45%N -> c = 45%N.
Proof.
  unfold Py.to_ascii.
  destruct (c <? 127)%N; [tauto|].
  destruct (uni_isspace py c); [discriminate|].
  destruct (uni_todecimal py c); [lia | discriminate].
Qed.

Lemma digit_val_nonneg (c : N) : Py.is_digit c = true -> 0 <= Py.digit_val c.
Proof.
  unfold Py.is_digit, Py.digit_val. intros H.
  apply andb_prop in H. destruct H as [H _]. apply N.leb_le in H. lia.
Qed.

Lemma more_digits_nonneg_bounded (k : nat) :
  forall s acc n v n' rest,
    (length s <= k)%nat ->
    0 <= acc -> Py.more_digits acc n s = Some (v, n', rest) -> 0 <= v.
Proof.
  induction k as [|k IH]; intros s acc n v n' rest Hlen Hacc;
    destruct s as [|c s]; cbn [Py.more_digits length] in *.
  - intros [= <- _ _]. exact Hacc.
  - lia.
  - intros [= <- _ _]. exact Hacc.
  - destruct (Py.is_digit c) eqn:Hc.
    + apply IH; [lia|]. pose proof (digit_val_nonneg c Hc). lia.
    + destruct (c =? 95)%N; [|intros [= <- _ _]; exact Hacc].
      destruct s as [|d s]; [discriminate|].
      destruct (Py.is_digit d) eqn:Hd; [|discriminate].
      apply IH; [cbn [length] in Hlen; lia|].
      pose proof (digit_val_nonneg d Hd). lia.
Qed.

Lemma more_digits_nonneg (s : pystr) (acc : Z) (n : N) (v : Z) (n' : N) (rest : pystr) :
  0 <= acc -> Py.more_digits acc n s = Some (v, n', rest) -> 0 <= v.
Proof. apply (more_digits_nonneg_bounded (length s)). lia. Qed.

Lemma int_nonneg (s : pystr) (n : Z) :
  (forall c, In c s -> c <> 45%N) -> Py.int py s = inr n -> 0 <= n.
Proof.
  intros Hs. unfold Py.int.
  assert (Hskip : forall c, In c (Py.skip_space (map (Py.to_ascii py) s)) -> c <> 45%N).
  { intros c Hc Heq. subst c. apply skip_space_In in Hc.
    apply in_map_iff in Hc. destruct Hc as (c & Hc & Hin).
    apply to_ascii_hyphen in Hc. subst c. exact (Hs _ Hin eq_refl). }
  destruct (Py.skip_space (map (Py.to_ascii py) s)) as [|c s1].
  - discriminate.
  - assert (Hc : (c =? 45)%N = false).
    { apply N.eqb_neq. apply Hskip. left. reflexivity. }
    rewrite Hc.
    assert (Hdigits : forall t v k rest, Py.digits t = Some (v, k, rest) -> 0 <= v).
    { intros t v k rest. unfold Py.digits. destruct t as [|d t]; [discriminate|].
      destruct (Py.is_digit d) eqn:Hd; [|discriminate].
      apply more_digits_nonneg. apply digit_val_nonneg. exact Hd. }
    destruct (c =? 43)%N.
    + destruct (Py.digits s1) as [[[v k] rest]|] eqn:Hv; [|discriminate].
      destruct (Py.too_many_digits py k); [discriminate|].
      destruct (Py.skip_space rest); [|discriminate].
      intros [= <-]. apply Hdigits in Hv. lia.
    + destruct (Py.digits (c :: s1)) as [[[v k] rest]|] eqn:Hv; [|discriminate].
      destruct (Py.too_many_digits py k); [discriminate|].
      destruct (Py.skip_space rest); [|discriminate].
      intros [= <-]. apply Hdigits in Hv. lia.
Qed.

Lemma split_hd_no_sep (sep : N) (s : pystr) (c : N) :
  In c (hd [] (Py.split sep s)) -> c <> sep.
Proof.
  induction s as [|a s IH]; cbn [Py.split].
  - simpl. tauto.
  - destruct (N.eqb_spec a sep) as [->|Hne]; [simpl; tauto|].
    destruct (Py.split sep s) as [|p ps]; cbn [hd] in *.
    + intros [<-|[]]. exact Hne.
    + intros [<-|Hc]; [exact Hne | exact (IH Hc)].
Qed.

(** X18.  The bound [map_age_to_group] reads is never negative: the text
    before the first hyphen holds no minus sign, so whatever the string,
    a bound that reads as an integer is at least 0 (a string that starts
    with a minus sign has an empty first part and falls back to
    [adult]). *)
Theorem first_bound_nonneg (age_range : pystr) :
  match first_bound py age_range with
  | inr min_age => 0 <= min_age
  | inl e => e = ValueError
             /\ grpc_server.map_age_to_group py age_range = inr (lit "adult")
  end
  /\ grpc_server.map_age_to_group py (45%N :: age_range) = inr (lit "adult").
Proof.
  split.
  - destruct (first_bound py age_range) as [e|n] eqn:Hb.
    + split; [eapply int_raises_ValueError; exact Hb|].
      rewrite map_age_to_group_eq, Hb. reflexivity.
    + unfold first_bound in Hb. eapply int_nonneg; [|exact Hb].
      intros c. apply split_hd_no_sep.
  - rewrite map_age_to_group_eq. unfold first_bound, Py.strip.
    change (45%N :: age_range) with ([] ++ 45%N :: age_range).
    rewrite lstrip_app_stop by reflexivity.
    rewrite rstrip_app_stop by reflexivity.
    reflexivity.
Qed.

End AgeGroupMapperMore.

(* ================================================================== *)
(** * The further properties on the small engines *)
(* ================================================================== *)

Section MoreRuns.
Import fixture.

Lemma find_face_first_maximum_witness :
  predictor._find_face cv0 nets_two (blank 64 64) w0
  = (inr (if box_valid (clipped_box 64 64 d_outside)
          then Some (clipped_box 64 64 d_outside)
          else predictor.find_face_loop 64 64 [d_face]),
     Build_World cv0 1%nat []).
Proof.
  apply (find_face_first_maximum cv0 nets_two (blank 64 64) w0
           (detector [d_face; d_outside]) (blank 64 64) [d_face] [] d_outside 1%nat);
    try reflexivity.
  - intros x [<-|[]]. reflexivity.
  - intros x [].
Defined.

Lemma find_face_provenance_witness :
  exists net blob ds d,
    predictor.face_net nets_ok = Some net
    /\ blobFromImage cv0 (blank 64 64) 1%Q (300, 300)
         (inject_Z 104, inject_Z 177, inject_Z 123) false = inr blob
    /\ forward_detections cv0 net blob (engine w0) = (inr ds, 1%nat)
    /\ In d ds
    /\ (predictor.FACE_CONFIDENCE_THRESHOLD < confidence d)%Q
    /\ (16, 16, 48, 48) = clipped_box 64 64 d
    /\ box_within 64 64 (16, 16, 48, 48)
    /\ [] = trace w0.
Proof.
  apply (find_face_provenance cv0 nets_ok (blank 64 64) w0
           (Build_World cv0 1%nat []) (16, 16, 48, 48)).
  reflexivity.
Defined.

Lemma padded_crop_geometry_witness :
  box_within 200 200 (50, 60, 100, 120)
  /\ Z.of_nat (rows (padded_crop (blank 200 200) (50, 60, 100, 120))) = 100
  /\ Z.of_nat (cols (padded_crop (blank 200 200) (50, 60, 100, 120))) = 90.
Proof.
  assert (H : box_within (Z.of_nat (rows (blank 200 200)))
                (Z.of_nat (cols (blank 200 200))) (50, 60, 100, 120)).
  { cbv. repeat split; discriminate. }
  split; [exact H|].
  destruct (padded_crop_geometry (blank 200 200) 50 60 100 120 H)
    as (Hrows & Hcols & _).
  split; [exact Hrows | exact Hcols].
Defined.

Lemma predict_age_gender_None_witness :
  Build_World cv0 0%nat [ev_predict_age_gender garbage]
  = after w0 [ev_predict_age_gender garbage]
  /\ (predictor.age_net nets_ok = None
      \/ predictor.gender_net nets_ok = None
      \/ imdecode cv0 garbage = inr None
      \/ exists frame,
          imdecode cv0 garbage = inr (Some frame)
          /\ (rows frame = 0%nat \/ cols frame = 0%nat)).
Proof.
  apply (predict_age_gender_None py0 cv0 nets_ok garbage w0
           (Build_World cv0 0%nat [ev_predict_age_gender garbage])).
  reflexivity.
Defined.

Lemma predict_age_gender_success_witness :
  predictor.predict_age_gender py0 cv0 nets_ok picture w0
  = (inr (Some (<[ "age" := lit "(25-32)" ]> (<[ "gender" := lit "Female" ]> ∅))),
     Build_World cv0 3%nat (trace w0 ++ [ev_predict_age_gender picture])).
Proof.
  apply (predict_age_gender_success py0 cv0 nets_ok picture w0
           face_detector age_classifier gender_classifier
           (blank 64 64) (blank 64 64) (padded_crop (blank 64 64) (16, 16, 48, 48))
           [det (7 # 8) (1 # 4) (1 # 4) (3 # 4) (3 # 4)] (16, 16, 48, 48)
           1%nat 2%nat 3%nat
           [1 # 4; 3 # 4]%Q [0; 1 # 10; 0; 1 # 10; 7 # 10; 1 # 10; 0; 0]%Q
           1%nat 4%nat (lit "Female") (lit "(25-32)"));
    first [reflexivity | discriminate].
Defined.

Lemma predict_age_gender_no_label_witness :
  (ValueError = ValueError \/ ValueError = IndexError)
  /\ predictor.predict_age_gender py0 cv0 nets_no_label picture w0
     = (inr (Some {[ "error" :=
                      lit "An unexpected server error occurred: "
                      ++ exc_str py0 ValueError ]}),
        Build_World cv0 2%nat (trace w0 ++ [ev_predict_age_gender picture])).
Proof.
  apply (predict_age_gender_no_label py0 cv0 nets_no_label picture w0
           face_detector age_classifier (classifier [])
           (blank 64 64) (blank 64 64) (padded_crop (blank 64 64) (16, 16, 48, 48))
           [det (7 # 8) (1 # 4) (1 # 4) (3 # 4) (3 # 4)] (16, 16, 48, 48)
           1%nat 2%nat [] ValueError);
    first [reflexivity | discriminate].
Defined.

Lemma frontends_agree_witness :
  grpc_server.rpc_status (new_events (grpc_server.Predict py0 cv0 nets_ok (rpc picture)) w0)
  = rpc_code_of_http
      (main.http_status (fst (main.predict py0 cv0 nets_ok (upload picture) w0))).
Proof.
  apply (frontends_agree py0 cv0 nets_ok (upload picture) (rpc picture) w0);
    first [reflexivity | discriminate].
Defined.

Lemma engine_text_decides_status_witness :
  imdecode cv1 odd_payload
  = inl (cv2_error (lit "imdecode: No face detected by decoder"))
  /\ main.http_status
       (fst (main.predict py0 cv1 nets_cv1 (upload odd_payload) (Build_World cv1 0%nat [])))
     = 400
  /\ grpc_server.rpc_status
       (new_events (grpc_server.Predict py0 cv1 nets_cv1 (rpc odd_payload))
          (Build_World cv1 0%nat []))
     = FAILED_PRECONDITION.
Proof.
  split; [reflexivity|].
  apply (engine_text_decides_status py0 cv1 nets_cv1 (upload odd_payload)
           (rpc odd_payload) (Build_World cv1 0%nat [])
           (cv2_error (lit "imdecode: No face detected by decoder")));
    first [reflexivity | discriminate].
Defined.

Lemma no_face_end_to_end_witness :
  predictor.predict_age_gender py0 cv0 nets_no_face picture w0
  = (inr (Some {[ "error" := lit "No face detected" ]}),
     Build_World cv0 1%nat (trace w0 ++ [ev_predict_age_gender picture]))
  /\ main.http_status (fst (main.predict py0 cv0 nets_no_face (upload picture) w0)) = 400
  /\ grpc_server.rpc_status
       (new_events (grpc_server.Predict py0 cv0 nets_no_face (rpc picture)) w0)
     = FAILED_PRECONDITION.
Proof.
  apply (no_face_end_to_end py0 cv0 nets_no_face (upload picture) (rpc picture) w0
           (detector []) (blank 64 64) (blank 64 64) [] 1%nat);
    try first [reflexivity | discriminate].
  intros d [].
Defined.

Lemma map_age_to_group_reads_first_bound_witness :
  grpc_server.map_age_to_group py0 (lit "25" ++ 45%N :: lit "32)")
  = grpc_server.map_age_to_group py0 (lit "25" ++ 45%N :: lit "99")
  /\ grpc_server.map_age_to_group py0 (40%N :: lit "25-32" ++ [41%N])
     = grpc_server.map_age_to_group py0 (lit "25-32").
Proof.
  apply (map_age_to_group_reads_first_bound py0 (lit "25") (lit "32)") (lit "99")
           (lit "25-32")).
  intros c [<-|[<-|[]]]; discriminate.
Defined.

End MoreRuns.

(* ================================================================== *)
(** * The cast to int64 *)
(* ================================================================== *)

Section Cast.

(** The cast gives a value of int64 whatever the product. *)
Lemma astype_int_range (q : Q) : INT64_MIN <= astype_int q < 2 ^ 63.
Proof.
  unfold astype_int, INT64_MIN.
  destruct ((- 2 ^ 63 <=? Qnum q ÷ Z.pos (Qden q))
            && (Qnum q ÷ Z.pos (Qden q) <? 2 ^ 63)) eqn:H.
  - apply andb_prop in H. destruct H as [H1 H2].
    apply Z.leb_le in H1. apply Z.ltb_lt in H2. lia.
  - lia.
Qed.

(** A coordinate beyond the range of int64 is cast to the least int64:
    as a right edge it leaves no area, as a left edge it is clipped
    to 0. *)
Lemma find_face_loop_beyond_int64 :
  predictor.find_face_loop 64 64
    [fixture.det (7 # 8) (1 # 4) (1 # 4) (inject_Z (10 ^ 30)) (3 # 4)] = None
  /\ predictor.find_face_loop 64 64
       [fixture.det (7 # 8) (inject_Z (10 ^ 30)) (1 # 4) (3 # 4) (3 # 4)]
     = Some (0, 16, 48, 48).
Proof. split; vm_compute; reflexivity. Qed.

End Cast.

(* ================================================================== *)
(** * The detector missing, on the bundles the loader produces *)
(* ================================================================== *)

Section MissingDetector.
Variable py : Python.
Variable cv : OpenCV.
Variable nets : predictor.ModelBundle cv.


End MissingDetector.

Section MissingDetectorRuns.
Import fixture.


End MissingDetectorRuns.
